(** * HRMS employee service (Fiber + MongoDB): model of [main.go]

    The service is one Go file: [Connect] opens the MongoDB session and
    publishes it in the global [mg]; [main] registers four Fiber handlers on
    the "employees" collection and starts listening.

    The handlers are embedded as programs over two families of events: the
    writes on the Fiber response ([Status], [SendString], [JSON],
    [SendStatus]) and the calls into the MongoDB driver.  The response writes
    are given Fiber's meaning, [c.JSON] failing as [json.Marshal] does on a
    number that has no JSON; the error a handler returns goes to Fiber's
    default error handler.  The driver calls are answered by an environment,
    either an arbitrary one (theorems quantified over [env]) or the reference
    store of module [MongoModel]. *)

From Stdlib Require Import String Ascii List ZArith NArith Bool Lia PrimFloat.
From Stdlib Require Import Strings.Byte.
Import ListNotations.
Local Open Scope string_scope.
Local Open Scope list_scope.
Local Open Scope Z_scope.

Set Warnings "-register-all".

(* ===================================================================== *)
(** ** Go values: errors, hex text, ObjectIDs, BSON documents             *)
(* ===================================================================== *)

(** The error values the program can meet.  [ErrNoDocuments] is the driver's
    sentinel the update handler compares against with [==]; any error the
    program only forwards is an [ErrorString] carrying its text. *)
Inductive error : Type :=
| ErrNoDocuments                  (* mongo.ErrNoDocuments *)
| ErrInvalidHex                   (* primitive.ErrInvalidHex *)
| ErrLength                       (* hex.ErrLength *)
| InvalidByteError (b : ascii)    (* hex.InvalidByteError *)
| ErrorString (msg : string).     (* errors.New(msg), fmt.Errorf, ... *)

Definition error_eqb (a b : error) : bool :=
  match a, b with
  | ErrNoDocuments, ErrNoDocuments => true
  | ErrInvalidHex, ErrInvalidHex => true
  | ErrLength, ErrLength => true
  | InvalidByteError x, InvalidByteError y => Ascii.eqb x y
  | ErrorString x, ErrorString y => String.eqb x y
  | _, _ => false
  end.

Module hex.

(** [hex.fromHexChar]: the value of one hex digit, either case. *)
Definition fromHexChar (c : ascii) : option N :=
  let n := N_of_ascii c in
  if ((48 <=? n) && (n <=? 57))%N then Some (n - 48)%N
  else if ((97 <=? n) && (n <=? 102))%N then Some (n - 97 + 10)%N
  else if ((65 <=? n) && (n <=? 70))%N then Some (n - 65 + 10)%N
  else None.

(** The byte [(a << 4) | b] of two digit values. *)
Definition mkbyte (a b : N) : byte :=
  byte_of_ascii (ascii_of_N (N.lor (N.shiftl a 4) b)).

(** [hex.DecodeString]: two digits per byte; a bad digit is reported before
    a bad length. *)
Fixpoint DecodeString (s : string) : list byte + error :=
  match s with
  | EmptyString => inl []
  | String p EmptyString =>
      match fromHexChar p with
      | None => inr (InvalidByteError p)
      | Some _ => inr ErrLength
      end
  | String p (String q rest) =>
      match fromHexChar p, fromHexChar q with
      | None, _ => inr (InvalidByteError p)
      | Some _, None => inr (InvalidByteError q)
      | Some a, Some b =>
          match DecodeString rest with
          | inl bs => inl (mkbyte a b :: bs)
          | inr e => inr e
          end
      end
  end.

(** The lower-case digit of a value below 16 ([hextable]). *)
Definition digit (n : N) : ascii :=
  if (n <? 10)%N then ascii_of_N (48 + n) else ascii_of_N (97 + (n - 10)).

(** The upper-case digit, as [%X] prints it. *)
Definition digitX (n : N) : ascii :=
  if (n <? 10)%N then ascii_of_N (48 + n) else ascii_of_N (65 + (n - 10)).

(** [hex.EncodeToString]. *)
Fixpoint EncodeToString (bs : list byte) : string :=
  match bs with
  | [] => EmptyString
  | b :: bs' =>
      let n := N_of_ascii (ascii_of_byte b) in
      String (digit (N.shiftr n 4)) (String (digit (N.land n 15)) (EncodeToString bs'))
  end.

End hex.

Module strconv.

(** [strconv.IsPrint] on the runes a byte can be (at most U+00FF). *)
Definition IsPrint (r : N) : bool :=
  if ((32 <=? r) && (r <=? 126))%N then true
  else if ((161 <=? r) && (r <=? 255))%N then negb (r =? 173)%N
  else false.

End strconv.

Module fmt.

(** UTF-8 of a rune below U+0100. *)
Definition utf8 (r : N) : string :=
  if (r <? 128)%N then String (ascii_of_N r) EmptyString
  else String (ascii_of_N (N.lor 192 (N.shiftr r 6)))
         (String (ascii_of_N (N.lor 128 (N.land r 63))) EmptyString).

(** [fmt.Sprintf("%#U", rune(b))] for a byte [b]. *)
Definition SharpU (b : ascii) : string :=
  let r := N_of_ascii b in
  ("U+00" ++ String (hex.digitX (N.shiftr r 4)) (String (hex.digitX (N.land r 15)) EmptyString)
     ++ (if strconv.IsPrint r then " '" ++ utf8 r ++ "'" else ""))%string.

End fmt.

(** [err.Error()]. *)
Definition Error (e : error) : string :=
  match e with
  | ErrNoDocuments => "mongo: no documents in result"
  | ErrInvalidHex => "the provided hex string is not a valid ObjectID"
  | ErrLength => "encoding/hex: odd length hex string"
  | InvalidByteError b => "encoding/hex: invalid byte: " ++ fmt.SharpU b
  | ErrorString msg => msg
  end.

Module primitive.

(** [primitive.ObjectID] is [[12]byte]. *)
Definition ObjectID : Type := list byte.

(** [primitive.ObjectIDFromHex]: exactly 24 bytes of text, all hex digits. *)
Definition ObjectIDFromHex (s : string) : ObjectID + error :=
  if negb (Nat.eqb (String.length s) 24) then inr ErrInvalidHex
  else
    match hex.DecodeString s with
    | inr err => inr err
    | inl b => inl b
    end.

(** [ObjectID.Hex]. *)
Definition Hex (id : ObjectID) : string := hex.EncodeToString id.

Fixpoint eqb (a b : ObjectID) : bool :=
  match a, b with
  | [], [] => true
  | x :: a', y :: b' => Byte.eqb x y && eqb a' b'
  | _, _ => false
  end.

End primitive.

Module bson.

(** The BSON values that occur in the service's documents, filters and
    updates.  [bson.D] is an ordered list of elements [bson.E{Key, Value}]. *)
Inductive Value : Type :=
| Null                                     (* a nil [Value] *)
| Str (s : string)
| Double (f : float)
| ObjectID (id : primitive.ObjectID)
| Document (d : list (string * Value)).

Definition E : Type := (string * Value)%type.
Definition D : Type := list E.

(** Equality of values, as the store compares a filter value with a field. *)
Fixpoint Value_eqb (a b : Value) {struct a} : bool :=
  match a, b with
  | Null, Null => true
  | Str x, Str y => String.eqb x y
  | Double x, Double y => PrimFloat.eqb x y
  | ObjectID x, ObjectID y => primitive.eqb x y
  | Document d1, Document d2 =>
      (fix go (l1 l2 : list (string * Value)) {struct l1} : bool :=
         match l1, l2 with
         | [], [] => true
         | (k1, v1) :: t1, (k2, v2) :: t2 =>
             String.eqb k1 k2 && Value_eqb v1 v2 && go t1 t2
         | _, _ => false
         end) d1 d2
  | _, _ => false
  end.

(** The value of the first element with key [k]. *)
Fixpoint lookup (k : string) (d : D) : option Value :=
  match d with
  | [] => None
  | (k', v) :: d' => if String.eqb k k' then Some v else lookup k d'
  end.

End bson.

(** The [Employee] struct; [new(Employee)] is its zero value. *)
Record Employee : Type := mkEmployee {
  ID : string;       (* json:"id,omitempty" bson:"_id,omitempty" *)
  Name : string;     (* json:"name" *)
  Salary : float;    (* json:"salary" *)
  Age : float        (* json:"age" *)
}.

Definition new_Employee : Employee :=
  {| ID := ""; Name := ""; Salary := 0%float; Age := 0%float |}.

Definition set_ID (e : Employee) (id : string) : Employee :=
  {| ID := id; Name := Name e; Salary := Salary e; Age := Age e |}.

(* ===================================================================== *)
(** ** Programs over events                                               *)
(* ===================================================================== *)

(** A program performs events of a family [E] and returns an [A]: the
    answer [X] of each event is supplied by whoever runs the program. *)
Inductive Prog (E : Type -> Type) (A : Type) : Type :=
| Ret (a : A)
| Vis (X : Type) (e : E X) (k : X -> Prog E A).

Arguments Ret {E A} a.
Arguments Vis {E A X} e k.

Fixpoint bind {E : Type -> Type} {A B : Type}
  (p : Prog E A) (f : A -> Prog E B) : Prog E B :=
  match p with
  | Ret a => f a
  | Vis e k => Vis e (fun x => bind (k x) f)
  end.

Definition trigger {E : Type -> Type} {X : Type} (e : E X) : Prog E X :=
  Vis e Ret.

Declare Scope prog_scope.
Delimit Scope prog_scope with prog.
Notation "x <- c ;; k" := (bind c (fun x => k))
  (at level 61, c at next level, right associativity) : prog_scope.
Notation "' p <- c ;; k" := (bind c (fun x => let p := x in k))
  (at level 61, p pattern, c at next level, right associativity) : prog_scope.
Notation "c ;; k" := (bind c (fun _ => k))
  (at level 61, right associativity) : prog_scope.
Local Open Scope prog_scope.

(* ===================================================================== *)
(** ** Fiber: the request and the response                                *)
(* ===================================================================== *)

Module fiber.

(** What a handler hands to [c.JSON]. *)
Inductive any : Type :=
| AEmployee (e : Employee)
| AEmployees (es : list Employee)
| AString (s : string).

(** The response body: nothing yet, raw text, the reason phrase of a status
    code ([utils.StatusMessage]), or the JSON encoding of a value. *)
Inductive Body : Type :=
| NoBody
| Text (s : string)
| StatusMessage (status : Z)
| JSONOf (data : any).

Record Response : Type := mkResponse {
  StatusCode : Z;
  body : Body;
  ContentType : string
}.

(** A fresh response: fasthttp's default status is 200. *)
Definition Response0 : Response :=
  {| StatusCode := 200; body := NoBody; ContentType := "" |}.

(** The writes on the response. *)
Inductive write : Type :=
| Status (status : Z)
| SendString (s : string)
| JSON (data : any)
| SendStatus (status : Z).

Definition body_is_empty (b : Body) : bool :=
  match b with
  | NoBody => true
  | Text s => Nat.eqb (String.length s) 0
  | _ => false
  end.

(** [json.Marshal] of a float64: NaN and the infinities have no JSON. *)
Definition unsupported_value (f : float) : option error :=
  if PrimFloat.is_nan f then Some (ErrorString "json: unsupported value: NaN")
  else if PrimFloat.is_infinity f then
    if PrimFloat.ltb f 0%float then Some (ErrorString "json: unsupported value: -Inf")
    else Some (ErrorString "json: unsupported value: +Inf")
  else None.

Definition Marshal_Employee (e : Employee) : option error :=
  match unsupported_value (Salary e) with
  | Some err => Some err
  | None => unsupported_value (Age e)
  end.

(** The error of [json.Marshal] (the app's [JSONEncoder]) on what the
    handlers encode, [None] when the value encodes: struct fields and slice
    elements in order, the first number without JSON is reported; strings
    always encode. *)
Fixpoint Marshal_Employees (es : list Employee) : option error :=
  match es with
  | [] => None
  | e :: es' =>
      match Marshal_Employee e with
      | Some err => Some err
      | None => Marshal_Employees es'
      end
  end.

Definition Marshal (data : any) : option error :=
  match data with
  | AEmployee e => Marshal_Employee e
  | AEmployees es => Marshal_Employees es
  | AString _ => None
  end.

(** The effect of one write.  [JSON] sets the body and the content type when
    the value encodes and writes nothing when it does not.  [SendStatus]
    sets the status, and the reason phrase as body only when the body is
    still empty. *)
Definition apply (w : write) (r : Response) : Response :=
  match w with
  | Status status =>
      {| StatusCode := status; body := body r; ContentType := ContentType r |}
  | SendString s =>
      {| StatusCode := StatusCode r; body := Text s; ContentType := ContentType r |}
  | JSON data =>
      match Marshal data with
      | None =>
          {| StatusCode := StatusCode r; body := JSONOf data;
             ContentType := "application/json" |}
      | Some _ => r
      end
  | SendStatus status =>
      {| StatusCode := status;
         body := if body_is_empty (body r) then StatusMessage status else body r;
         ContentType := ContentType r |}
  end.

(** The error a write returns: the encoder's for [JSON], nil for the others. *)
Definition result (w : write) : option error :=
  match w with
  | JSON data => Marshal data
  | _ => None
  end.

(** [DefaultErrorHandler], which answers for a handler that returned an
    error that is no [*fiber.Error]: plain text, status 500, the error text. *)
Definition ErrorHandler (err : error) (r : Response) : Response :=
  apply (SendString (Error err))
    (apply (Status 500)
       {| StatusCode := StatusCode r; body := body r;
          ContentType := "text/plain; charset=utf-8" |}).

(** The request as the handlers read it: the route parameters, and what
    [c.BodyParser(out)] leaves in [out] together with its error. *)
Record Ctx : Type := mkCtx {
  Params : string -> string;
  BodyParser : Employee -> Employee * option error
}.

End fiber.

(* ===================================================================== *)
(** ** The MongoDB driver: handles, results and calls                     *)
(* ===================================================================== *)

Module mongo.

Record Client : Type := mkClient { client_uri : string }.
Record Database : Type := mkDatabase { db_client : Client; db_name : string }.
Record Collection : Type := mkCollection { coll_db : Database; coll_name : string }.

(** [*mongo.Cursor]: the documents a query selected. *)
Record Cursor : Type := mkCursor { batch : list bson.D }.

(** [*mongo.SingleResult]: an error, or the raw document found. *)
Record SingleResult : Type := mkSingleResult {
  sr_err : option error;
  sr_rdr : bson.D
}.

(** [SingleResult.Err]. *)
Definition Err (sr : SingleResult) : option error := sr_err sr.

Record InsertOneResult : Type := mkInsertOneResult { InsertedID : bson.Value }.
Record DeleteResult : Type := mkDeleteResult { DeletedCount : Z }.

(** The driver calls of the handlers.  A call that returns [(result, err)]
    answers with the result or the error; a call that fills an out-parameter
    ([cursor.All], [SingleResult.Decode]) answers with the parameter's value
    after the call and the error. *)
Inductive call : Type -> Type :=
| Find (c : Collection) (filter : bson.D) : call (Cursor + error)
| All (cur : Cursor) (results : list Employee) : call (list Employee * option error)
| InsertOne (c : Collection) (document : Employee) : call (InsertOneResult + error)
| FindOne (c : Collection) (filter : bson.D) : call SingleResult
| Decode (sr : SingleResult) (v : Employee) : call (Employee * option error)
| FindOneAndUpdate (c : Collection) (filter update : bson.D) : call SingleResult
| DeleteOne (c : Collection) (filter : bson.D) : call (DeleteResult + error).

End mongo.

(* ===================================================================== *)
(** ** The four handlers of [main]                                        *)
(* ===================================================================== *)

(** A handler writes on the response, each write answering with the error
    it returns, and calls the driver. *)
Inductive handlerE : Type -> Type :=
| Resp (w : fiber.write) : handlerE (option error)
| Drv (X : Type) (c : mongo.call X) : handlerE X.

Arguments Drv {X} c.

(** [func(c *fiber.Ctx) error]. *)
Definition Handler : Type := fiber.Ctx -> Prog handlerE (option error).

Module c.
(** The methods of [*fiber.Ctx] that write. *)
Definition Status (status : Z) : Prog handlerE (option error) :=
  trigger (Resp (fiber.Status status)).
Definition SendString (s : string) : Prog handlerE (option error) :=
  trigger (Resp (fiber.SendString s)).
Definition JSON (data : fiber.any) : Prog handlerE (option error) :=
  trigger (Resp (fiber.JSON data)).
Definition SendStatus (status : Z) : Prog handlerE (option error) :=
  trigger (Resp (fiber.SendStatus status)).
End c.

Module collection.
(** The methods of [*mongo.Collection], [*mongo.Cursor] and
    [*mongo.SingleResult] the handlers call. *)
Definition Find (coll : mongo.Collection) (filter : bson.D) := trigger (Drv (mongo.Find coll filter)).
Definition All (cur : mongo.Cursor) (results : list Employee) := trigger (Drv (mongo.All cur results)).
Definition InsertOne (coll : mongo.Collection) (document : Employee) :=
  trigger (Drv (mongo.InsertOne coll document)).
Definition FindOne (coll : mongo.Collection) (filter : bson.D) := trigger (Drv (mongo.FindOne coll filter)).
Definition Decode (sr : mongo.SingleResult) (v : Employee) := trigger (Drv (mongo.Decode sr v)).
Definition FindOneAndUpdate (coll : mongo.Collection) (filter update : bson.D) :=
  trigger (Drv (mongo.FindOneAndUpdate coll filter update)).
Definition DeleteOne (coll : mongo.Collection) (filter : bson.D) :=
  trigger (Drv (mongo.DeleteOne coll filter)).
End collection.

(** [app.Get("/employee", ...)]. *)
Definition getEmployee (coll : mongo.Collection) : Handler := fun ctx =>
  let query : bson.D := [("", bson.Null)] in                 (* bson.D{{}} *)
  r <- collection.Find coll query ;;
  match r with
  | inr err => c.Status 500 ;; c.SendString (Error err)
  | inl cursor =>
      let employees : list Employee := [] in
      ' (employees, err) <- collection.All cursor employees ;;
      match err with
      | Some err => c.Status 500 ;; c.SendString (Error err)   (* no return *)
      | None => Ret None
      end ;;
      c.JSON (fiber.AEmployees employees)
  end.

(** [app.Post("/employee", ...)]. *)
Definition postEmployee (coll : mongo.Collection) : Handler := fun ctx =>
  let employee := new_Employee in
  let '(employee, err) := fiber.BodyParser ctx employee in
  match err with
  | Some err => c.Status 400 ;; c.SendString (Error err)
  | None =>
      let employee := set_ID employee "" in
      r <- collection.InsertOne coll employee ;;
      match r with
      | inr err => c.Status 500 ;; c.SendString (Error err)
      | inl insertionResult =>
          let filter : bson.D := [("_id", mongo.InsertedID insertionResult)] in
          createdRecord <- collection.FindOne coll filter ;;
          let createdEmployee := new_Employee in
          ' (createdEmployee, _) <- collection.Decode createdRecord createdEmployee ;;
          c.Status 201 ;; c.JSON (fiber.AEmployee createdEmployee)
      end
  end.

(** The [query] and the [update] of the PUT handler. *)
Definition put_query (employeeID : primitive.ObjectID) : bson.D :=
  [("_id", bson.ObjectID employeeID)].

Definition put_update (employee : Employee) : bson.D :=
  [("$set", bson.Document [("name", bson.Str (Name employee));
                           ("age", bson.Double (Age employee));
                           ("salary", bson.Double (Salary employee))])].

(** [app.Put("/employee/:id", ...)]. *)
Definition putEmployee (coll : mongo.Collection) : Handler := fun ctx =>
  let idParam := fiber.Params ctx "id" in
  match primitive.ObjectIDFromHex idParam with
  | inr _ => c.SendStatus 400
  | inl employeeID =>
      let employee := new_Employee in
      let '(employee, err) := fiber.BodyParser ctx employee in
      match err with
      | Some err => c.Status 400 ;; c.SendString (Error err)
      | None =>
          let query := put_query employeeID in
          let update := put_update employee in
          sr <- collection.FindOneAndUpdate coll query update ;;
          match mongo.Err sr with
          | Some err =>
              if error_eqb err ErrNoDocuments then c.SendStatus 400
              else c.SendStatus 500
          | None =>
              let employee := set_ID employee idParam in
              c.Status 200 ;; c.JSON (fiber.AEmployee employee)
          end
      end
  end.

(** [app.Delete("/employee/:id", ...)]. *)
Definition deleteEmployee (coll : mongo.Collection) : Handler := fun ctx =>
  match primitive.ObjectIDFromHex (fiber.Params ctx "id") with
  | inr err => c.Status 400 ;; c.SendString (Error err)
  | inl employeeID =>
      let query : bson.D := [("_id", bson.ObjectID employeeID)] in
      r <- collection.DeleteOne coll query ;;
      match r with
      | inr _ => c.SendStatus 500
      | inl result =>
          if mongo.DeletedCount result <? 1 then c.SendStatus 404
          else c.Status 200 ;; c.JSON (fiber.AString "record deleted...")
      end
  end.

(* ===================================================================== *)
(** ** Running a handler                                                  *)
(* ===================================================================== *)

(** The environment answers each driver call from a state of its own. *)
Definition Env (S : Type) : Type := forall X : Type, mongo.call X -> S -> X * S.

(** A driver call as it is logged: the call with its answer type. *)
Definition logged : Type := { X : Type & mongo.call X }.
Definition log {X : Type} (c : mongo.call X) : logged := existT _ X c.

(** The state of one request: the response so far, the writes the handler
    called and the driver calls, in the order they were made, and the
    environment's state. *)
Record World (S : Type) : Type := mkWorld {
  response : fiber.Response;
  writes : list fiber.write;
  calls : list logged;
  store : S
}.

Arguments mkWorld {S} _ _ _ _.
Arguments response {S} _.
Arguments writes {S} _.
Arguments calls {S} _.
Arguments store {S} _.

Definition World0 {S : Type} (s : S) : World S :=
  mkWorld fiber.Response0 [] [] s.

Definition step {S : Type} (env : Env S) {X : Type} (e : handlerE X) (w : World S)
  : X * World S :=
  match e in handlerE X return X * World S with
  | Resp wr =>
      (fiber.result wr,
       mkWorld (fiber.apply wr (response w)) (writes w ++ [wr]) (calls w) (store w))
  | Drv c =>
      let (x, s') := env _ c (store w) in
      (x, mkWorld (response w) (writes w) (calls w ++ [log c]) s')
  end.

Fixpoint run {S A : Type} (env : Env S) (p : Prog handlerE A) (w : World S)
  : A * World S :=
  match p with
  | Ret a => (a, w)
  | Vis e k => let (x, w') := step env e w in run env (k x) w'
  end.

(** The world left when [ctx] is served over a store in state [s]: the
    handler runs on a fresh response, and when it returns an error Fiber's
    error handler answers.  [writes] are the handler's own. *)
Definition serve {S : Type} (env : Env S) (h : Handler) (ctx : fiber.Ctx) (s : S) : World S :=
  let (err, w) := run env (h ctx) (World0 s) in
  match err with
  | None => w
  | Some e => mkWorld (fiber.ErrorHandler e (response w)) (writes w) (calls w) (store w)
  end.

(* ===================================================================== *)
(** ** A reference store                                                  *)
(* ===================================================================== *)

(** The driver and the server as far as the handlers use them: one
    collection of documents in insertion order, with unique [_id]s; a
    schedule of faults, one entry per round trip to the server ([Some e]
    makes that round trip fail with [e]); and what the driver generates
    ObjectIDs from. *)
Module MongoModel.

(** The state [primitive.NewObjectID] reads: the clock in Unix seconds, the
    five random bytes of the process ([processUnique], as a number), and the
    32-bit counter [objectIDCounter]. *)
Record Generator : Type := mkGenerator {
  clock : N;
  processUnique : N;
  objectIDCounter : N
}.

Record Store : Type := mkStore {
  docs : list bson.D;
  faults : list (option error);
  generator : Generator
}.

(** The next entry of the fault schedule; an exhausted schedule is healthy. *)
Definition next_fault (s : Store) : option error * Store :=
  match faults s with
  | [] => (None, s)
  | f :: fs => (f, mkStore (docs s) fs (generator s))
  end.

(** No fault is scheduled for the next [n] round trips. *)
Definition no_fault (n : nat) (s : Store) : bool :=
  forallb (fun f : option error => match f with None => true | Some _ => false end)
          (firstn n (faults s)).

(** The low [len] bytes of [n], big endian. *)
Fixpoint be_bytes (len : nat) (n : N) : list byte :=
  match len with
  | O => []
  | S len' => be_bytes len' (N.shiftr n 8) ++ [byte_of_ascii (ascii_of_N (N.land n 255))]
  end.

(** [atomic.AddUint32(&objectIDCounter, 1)]. *)
Definition increment (g : Generator) : Generator :=
  mkGenerator (clock g) (processUnique g) ((objectIDCounter g + 1) mod 2 ^ 32)%N.

(** [primitive.NewObjectID]: four bytes of the clock, the five bytes of the
    process and the low three bytes of the incremented counter. *)
Definition NewObjectID (g : Generator) : primitive.ObjectID :=
  be_bytes 4 (clock g) ++ be_bytes 5 (processUnique g)
    ++ be_bytes 3 (objectIDCounter (increment g)).

(** The struct codec on [Employee]: [_id] is left out when empty. *)
Definition Marshal (e : Employee) : bson.D :=
  (if Nat.eqb (String.length (ID e)) 0 then [] else [("_id", bson.Str (ID e))])
    ++ [("name", bson.Str (Name e));
        ("salary", bson.Double (Salary e));
        ("age", bson.Double (Age e))].

(** [bsontype.Type.String]. *)
Definition type_name (v : bson.Value) : string :=
  match v with
  | bson.Null => "null"
  | bson.Str _ => "string"
  | bson.Double _ => "double"
  | bson.ObjectID _ => "objectID"
  | bson.Document _ => "embedded document"
  end.

Definition decode_string (key : string) (v : bson.Value) : string + error :=
  match v with
  | bson.Str s => inl s
  | bson.ObjectID id => inl (primitive.Hex id)
  | bson.Null => inl ""
  | _ => inr (ErrorString ("error decoding key " ++ key ++ ": cannot decode "
                           ++ type_name v ++ " into a string type"))
  end.

Definition decode_float (key : string) (v : bson.Value) : float + error :=
  match v with
  | bson.Double f => inl f
  | bson.Null => inl 0%float
  | _ => inr (ErrorString ("error decoding key " ++ key ++ ": cannot decode "
                           ++ type_name v ++ " into a float32 or float64 type"))
  end.

(** [strings.ToLower] as far as its result can be ASCII: the letters A to Z,
    and the two runes outside ASCII whose lower case is an ASCII letter,
    U+0130 (bytes C4 B0, to "i") and U+212A (bytes E2 84 AA, to "k").  Every
    other rune lowers to a rune outside ASCII and is left as it is here. *)
Fixpoint ToLower (s : string) : string :=
  match s with
  | EmptyString => EmptyString
  | String a s1 =>
      let n := N_of_ascii a in
      if ((65 <=? n) && (n <=? 90))%N then String (ascii_of_N (n + 32)) (ToLower s1)
      else
        match s1 with
        | String b s2 =>
            if ((n =? 196) && (N_of_ascii b =? 176))%N then String "i" (ToLower s2)
            else
              match s2 with
              | String d s3 =>
                  if ((n =? 226) && (N_of_ascii b =? 132) && (N_of_ascii d =? 170))%N
                  then String "k" (ToLower s3)
                  else String a (ToLower s1)
              | EmptyString => String a (ToLower s1)
              end
        | EmptyString => String a EmptyString
        end
  end.

(** The struct field a document key decodes into: the field of that very
    name, or else the field of the key in lower case. *)
Definition field_name (key : string) : string :=
  if existsb (String.eqb key) ["_id"; "name"; "salary"; "age"] then key
  else ToLower key.

(** One element of a document decoded into the struct; a key that names no
    field is skipped. *)
Definition decode_field (k : string) (v : bson.Value) (e : Employee) : Employee + error :=
  let key := field_name k in
  if String.eqb key "_id" then
    match decode_string key v with
    | inl s => inl (mkEmployee s (Name e) (Salary e) (Age e))
    | inr err => inr err
    end
  else if String.eqb key "name" then
    match decode_string key v with
    | inl s => inl (mkEmployee (ID e) s (Salary e) (Age e))
    | inr err => inr err
    end
  else if String.eqb key "salary" then
    match decode_float key v with
    | inl f => inl (mkEmployee (ID e) (Name e) f (Age e))
    | inr err => inr err
    end
  else if String.eqb key "age" then
    match decode_float key v with
    | inl f => inl (mkEmployee (ID e) (Name e) (Salary e) f)
    | inr err => inr err
    end
  else inl e.

(** [bson.Unmarshal] into a struct: element by element, stopping at the first
    that does not decode and leaving what was filled before it. *)
Fixpoint Unmarshal (d : bson.D) (e : Employee) : Employee * option error :=
  match d with
  | [] => (e, None)
  | (key, v) :: d' =>
      match decode_field key v e with
      | inl e' => Unmarshal d' e'
      | inr err => (e, Some err)
      end
  end.

(** [cursor.All]: every document decoded into a fresh element; the slice is
    assigned only when all of them decoded. *)
Fixpoint decode_all (ds : list bson.D) : list Employee + error :=
  match ds with
  | [] => inl []
  | d :: ds' =>
      match Unmarshal d new_Employee with
      | (_, Some err) => inr err
      | (e, None) =>
          match decode_all ds' with
          | inl es => inl (e :: es)
          | inr err => inr err
          end
      end
  end.

(** A filter selects a document when each of its elements equals the
    document's field of that key; a [Null] also selects a missing field. *)
Definition matches (filter doc : bson.D) : bool :=
  forallb (fun kv : bson.E =>
             match bson.lookup (fst kv) doc with
             | Some v => bson.Value_eqb (snd kv) v
             | None => match snd kv with bson.Null => true | _ => false end
             end) filter.

(** [$set] of one field: replaced in place, or appended. *)
Fixpoint set_field (key : string) (v : bson.Value) (d : bson.D) : bson.D :=
  match d with
  | [] => [(key, v)]
  | (k', v') :: d' =>
      if String.eqb key k' then (key, v) :: d' else (k', v') :: set_field key v d'
  end.

Definition set_fields (fields doc : bson.D) : bson.D :=
  fold_left (fun d kv => set_field (fst kv) (snd kv) d) fields doc.

(** An update document applied to a document: [$set] is the one operator the
    service sends; anything else is refused by the server. *)
Fixpoint apply_update (update doc : bson.D) : bson.D + error :=
  match update with
  | [] => inl doc
  | (op, arg) :: update' =>
      match arg with
      | bson.Document fields =>
          if String.eqb op "$set" then apply_update update' (set_fields fields doc)
          else inr (ErrorString ("Unknown modifier: " ++ op))
      | _ => inr (ErrorString "Modifiers operate on fields")
      end
  end.

(** The first document a filter selects, with what is before and after it. *)
Fixpoint find_first (filter : bson.D) (ds : list bson.D)
  : option (list bson.D * bson.D * list bson.D) :=
  match ds with
  | [] => None
  | d :: ds' =>
      if matches filter d then Some ([], d, ds')
      else match find_first filter ds' with
           | Some (pre, x, post) => Some (d :: pre, x, post)
           | None => None
           end
  end.

Definition has_id (id : bson.Value) (d : bson.D) : bool :=
  match bson.lookup "_id" d with
  | Some v => bson.Value_eqb id v
  | None => false
  end.

(** [InsertOne]: the driver adds a generated [_id] in front of a document
    that has none; the server refuses an [_id] already in the collection. *)
Definition insert (e : Employee) (s : Store) : (mongo.InsertOneResult + error) * Store :=
  let doc := Marshal e in
  let '(id, doc, n) :=
    match bson.lookup "_id" doc with
    | Some id => (id, doc, generator s)
    | None =>
        let id := bson.ObjectID (NewObjectID (generator s)) in
        (id, ("_id", id) :: doc, increment (generator s))
    end in
  if existsb (has_id id) (docs s)
  then (inr (ErrorString "E11000 duplicate key error"), mkStore (docs s) (faults s) n)
  else (inl (mongo.mkInsertOneResult id), mkStore (docs s ++ [doc]) (faults s) n).

(** [FindOneAndUpdate] with no options: no upsert; the result holds the
    document as it was before the update. *)
Definition find_one_and_update (filter update : bson.D) (s : Store)
  : mongo.SingleResult * Store :=
  match find_first filter (docs s) with
  | None => (mongo.mkSingleResult (Some ErrNoDocuments) [], s)
  | Some (pre, d, post) =>
      match apply_update update d with
      | inr err => (mongo.mkSingleResult (Some err) [], s)
      | inl d' => (mongo.mkSingleResult None d,
                   mkStore (pre ++ d' :: post) (faults s) (generator s))
      end
  end.

Definition delete_one (filter : bson.D) (s : Store) : mongo.DeleteResult * Store :=
  match find_first filter (docs s) with
  | None => (mongo.mkDeleteResult 0, s)
  | Some (pre, _, post) =>
      (mongo.mkDeleteResult 1, mkStore (pre ++ post) (faults s) (generator s))
  end.

(** The answers of the reference store. *)
Definition env : Env Store := fun X call =>
  match call in mongo.call X return Store -> X * Store with
  | mongo.Find _ filter => fun s =>
      match next_fault s with
      | (Some err, s') => (inr err, s')
      | (None, s') => (inl (mongo.mkCursor (List.filter (matches filter) (docs s'))), s')
      end
  | mongo.All cur results => fun s =>
      match decode_all (mongo.batch cur) with
      | inl es => ((es, None), s)
      | inr err => ((results, Some err), s)
      end
  | mongo.InsertOne _ document => fun s =>
      match next_fault s with
      | (Some err, s') => (inr err, s')
      | (None, s') => insert document s'
      end
  | mongo.FindOne _ filter => fun s =>
      match next_fault s with
      | (Some err, s') => (mongo.mkSingleResult (Some err) [], s')
      | (None, s') =>
          match find_first filter (docs s') with
          | Some (_, d, _) => (mongo.mkSingleResult None d, s')
          | None => (mongo.mkSingleResult (Some ErrNoDocuments) [], s')
          end
      end
  | mongo.Decode sr v => fun s =>
      match mongo.sr_err sr with
      | Some err => ((v, Some err), s)
      | None => (Unmarshal (mongo.sr_rdr sr) v, s)
      end
  | mongo.FindOneAndUpdate _ filter update => fun s =>
      match next_fault s with
      | (Some err, s') => (mongo.mkSingleResult (Some err) [], s')
      | (None, s') => find_one_and_update filter update s'
      end
  | mongo.DeleteOne _ filter => fun s =>
      match next_fault s with
      | (Some err, s') => (inr err, s')
      | (None, s') =>
          let (r, s'') := delete_one filter s' in (inl r, s'')
      end
  end.

(** A request with the given [:id] and the given outcome of [BodyParser]. *)
Definition request (id : string) (parsed : Employee * option error) : fiber.Ctx :=
  fiber.mkCtx (fun key => if String.eqb key "id" then id else "") (fun _ => parsed).

End MongoModel.

(* ===================================================================== *)
(** ** Startup: [Connect] and [main]                                      *)
(* ===================================================================== *)

(** [MongoInstance]: two pointers, [None] for nil. *)
Record MongoInstance : Type := mkMongoInstance {
  Client : option mongo.Client;
  Db : option mongo.Database
}.

(** The zero value the global [mg] starts with. *)
Definition MongoInstance0 : MongoInstance := mkMongoInstance None None.

Definition dbName : string := "fiber-hrms".
Definition mongoURI : string := "mongodb://localhost:27017/" ++ dbName.

(** What becomes of a call of [app.Listen]: it serves and never returns, or
    it returns (the listener could not be set up, or the server was shut
    down) with an error or nil. *)
Inductive listening : Type :=
| Serves
| Returns (err : option error).

(** What [main] asks of the libraries: answered by the environment. *)
Inductive libcall : Type -> Type :=
| NewClient (uri : string) : libcall (option mongo.Client * option error)
| ClientConnect (client : mongo.Client) (timeout_seconds : Z) : libcall (option error)
| Listen (addr : string) : libcall listening.

(** The events of the process: library calls, the global [mg], the routes
    of the Fiber app, and the ways the process goes no further: [log.Fatal],
    which prints and exits with status 1, a nil-pointer panic, and
    [app.Listen] serving for good.  Nothing follows these, so their answer
    type is empty. *)
Inductive procE : Type -> Type :=
| Lib (X : Type) (c : libcall X) : procE X
| LoadMg : procE MongoInstance
| StoreMg (v : MongoInstance) : procE unit
| Route (method path : string) (h : Handler) : procE unit
| Fatal (msg : string) : procE Empty_set
| NilDereference : procE Empty_set
| ServeForever : procE Empty_set.

Arguments Lib {X} c.

Definition stop {A : Type} (e : procE Empty_set) : Prog procE A :=
  Vis e (fun x : Empty_set => match x with end).

(** [client.Connect(ctx)] and [client.Database(name)] on a possibly nil
    [*mongo.Client]. *)
Definition client_Connect (client : option mongo.Client) (timeout_seconds : Z)
  : Prog procE (option error) :=
  match client with
  | None => stop NilDereference
  | Some cl => trigger (Lib (ClientConnect cl timeout_seconds))
  end.

Definition client_Database (client : option mongo.Client) (name : string)
  : Prog procE (option mongo.Database) :=
  match client with
  | None => stop NilDereference
  | Some cl => Ret (Some (mongo.mkDatabase cl name))
  end.

(** [db.Collection(name)] on a possibly nil [*mongo.Database]. *)
Definition db_Collection (db : option mongo.Database) (name : string)
  : Prog procE mongo.Collection :=
  match db with
  | None => stop NilDereference
  | Some d => Ret (mongo.mkCollection d name)
  end.

(** [app.Listen(addr)]: blocks while the server serves. *)
Definition app_Listen (addr : string) : Prog procE (option error) :=
  l <- trigger (Lib (Listen addr)) ;;
  match l with
  | Serves => stop ServeForever
  | Returns err => Ret err
  end.

(** [func Connect() error].  The error of [mongo.NewClient] is overwritten by
    the one of [client.Connect]. *)
Definition Connect : Prog procE (option error) :=
  ' (client, err) <- trigger (Lib (NewClient mongoURI)) ;;
  let timeout := 30 in                    (* context.WithTimeout(..., 30*time.Second) *)
  err <- client_Connect client timeout ;;
  db <- client_Database client dbName ;;
  match err with
  | Some err => Ret (Some err)
  | None =>
      trigger (StoreMg (mkMongoInstance client db)) ;;
      Ret None
  end.

(** [fmt.Sprint] of an error operand. *)
Definition Sprint_error (err : option error) : string :=
  match err with
  | Some e => Error e
  | None => "<nil>"
  end.

(** [func main()].  The routes are those of [app := fiber.New()]. *)
Definition main : Prog procE unit :=
  err <- Connect ;;
  match err with
  | Some err => stop (Fatal ("Error: %v" ++ Error err))
  | None => Ret tt
  end ;;
  mg <- trigger LoadMg ;;
  coll <- db_Collection (Db mg) "employees" ;;
  trigger (Route "GET" "/employee" (getEmployee coll)) ;;
  trigger (Route "POST" "/employee" (postEmployee coll)) ;;
  trigger (Route "PUT" "/employee/:id" (putEmployee coll)) ;;
  trigger (Route "DELETE" "/employee/:id" (deleteEmployee coll)) ;;
  err <- app_Listen ":3000" ;;
  stop (Fatal (Sprint_error err)).

(** How a process ends, when it does not return from [main]: it exits, it
    panics, or it is serving and stays so. *)
Inductive Halt : Type :=
| Exit (status : Z)
| Panic
| Serving.

(** What the process did, in order. *)
Inductive action : Type :=
| DidNewClient (uri : string)
| DidConnect (client : mongo.Client) (timeout_seconds : Z)
| DidListen (addr : string)
| DidRoute (method path : string)
| DidFatal (msg : string)
| DidPanic.

Record Process (S : Type) : Type := mkProcess {
  mg : MongoInstance;
  trace : list action;
  stderr : list string;
  world : S
}.

Arguments mkProcess {S} _ _ _ _.
Arguments mg {S} _.
Arguments trace {S} _.
Arguments stderr {S} _.
Arguments world {S} _.

Definition Process0 {S : Type} (s : S) : Process S :=
  mkProcess MongoInstance0 [] [] s.

Definition LibEnv (S : Type) : Type := forall X : Type, libcall X -> S -> X * S.

Definition action_of {X : Type} (c : libcall X) : action :=
  match c with
  | NewClient uri => DidNewClient uri
  | ClientConnect client t => DidConnect client t
  | Listen addr => DidListen addr
  end.

Definition pstep {S : Type} (env : LibEnv S) {X : Type} (e : procE X) (w : Process S)
  : (X + Halt) * Process S :=
  match e in procE X return (X + Halt) * Process S with
  | Lib c =>
      let (x, s') := env _ c (world w) in
      (inl x, mkProcess (mg w) (trace w ++ [action_of c]) (stderr w) s')
  | LoadMg => (inl (mg w), w)
  | StoreMg v => (inl tt, mkProcess v (trace w) (stderr w) (world w))
  | Route method path _ =>
      (inl tt, mkProcess (mg w) (trace w ++ [DidRoute method path]) (stderr w) (world w))
  | Fatal msg =>
      (inr (Exit 1), mkProcess (mg w) (trace w ++ [DidFatal msg]) (stderr w ++ [msg]) (world w))
  | NilDereference =>
      (inr Panic, mkProcess (mg w) (trace w ++ [DidPanic]) (stderr w) (world w))
  | ServeForever => (inr Serving, w)
  end.

Fixpoint exec {S A : Type} (env : LibEnv S) (p : Prog procE A) (w : Process S)
  : (A + Halt) * Process S :=
  match p with
  | Ret a => (inl a, w)
  | Vis e k =>
      match pstep env e w with
      | (inl x, w') => exec env (k x) w'
      | (inr h, w') => (inr h, w')
      end
  end.

(** The server has started once [app.Listen] was called. *)
Definition is_listen (a : action) : bool :=
  match a with DidListen _ => true | _ => false end.

Definition is_connect (a : action) : bool :=
  match a with DidConnect _ _ => true | _ => false end.

Definition server_started {S : Type} (w : Process S) : bool :=
  existsb is_listen (trace w).

Definition connect_attempts {S : Type} (w : Process S) : nat :=
  List.length (List.filter is_connect (trace w)).

(* ===================================================================== *)
(** ** Concrete requests, stores and library answers                      *)
(* ===================================================================== *)

Module Scenario.

Definition client : mongo.Client := mongo.mkClient mongoURI.

Definition employees : mongo.Collection :=
  mongo.mkCollection (mongo.mkDatabase client dbName) "employees".

(** A driver started at second 1700000000 (0x6553f100) with process bytes
    a1 b2 c3 d4 e5 and counter 15, and what it is after one and after two
    identifiers. *)
Definition gen0 : MongoModel.Generator := MongoModel.mkGenerator 1700000000 694488913125 15.
Definition gen1 : MongoModel.Generator := MongoModel.increment gen0.
Definition gen2 : MongoModel.Generator := MongoModel.increment gen1.

(** The first two identifiers it generates, and one it never generated. *)
Definition oid0 : primitive.ObjectID := MongoModel.NewObjectID gen0.
Definition oid1 : primitive.ObjectID := MongoModel.NewObjectID gen1.
Definition oid9 : primitive.ObjectID :=
  MongoModel.NewObjectID (MongoModel.mkGenerator 1700000000 694488913125 8).
Definition hex0 : string := "6553f100a1b2c3d4e5000010".
Definition hex1 : string := "6553f100a1b2c3d4e5000011".
Definition hex9 : string := "6553f100a1b2c3d4e5000009".

(** Request bodies: Ann with an identifier of the client's choosing; Bo; Bo
    sent with the identifier that follows Ann's; and Bo with a salary that
    is not a number, as a form body [salary=NaN] parses. *)
Definition ann : Employee := mkEmployee "my-own-id" "Ann" 1000%float 30%float.
Definition bo : Employee := mkEmployee "" "Bo" 2000%float 41%float.
Definition bo_predicting : Employee := mkEmployee hex1 "Bo" 2000%float 41%float.
Definition bo_nan : Employee := mkEmployee "" "Bo" PrimFloat.nan 41%float.

Definition ann_doc : bson.D :=
  [("_id", bson.ObjectID oid0); ("name", bson.Str "Ann");
   ("salary", bson.Double 1000%float); ("age", bson.Double 30%float);
   ("team", bson.Str "payroll")].

(** A document whose name was stored as a number: it does not decode. *)
Definition odd_doc : bson.D :=
  [("_id", bson.ObjectID oid1); ("name", bson.Double 3%float)].

Definition reset : error := ErrorString "connection reset by peer".

Definition empty : MongoModel.Store := MongoModel.mkStore [] [] gen0.
Definition with_ann : MongoModel.Store := MongoModel.mkStore [ann_doc] [] gen1.
Definition with_odd_doc : MongoModel.Store := MongoModel.mkStore [ann_doc; odd_doc] [] gen2.
(** The server is unreachable at the next round trip. *)
Definition unreachable : MongoModel.Store := MongoModel.mkStore [ann_doc] [Some reset] gen1.
(** The insertion goes through and the read that follows it fails. *)
Definition fails_after_insert : MongoModel.Store :=
  MongoModel.mkStore [] [None; Some reset] gen0.

(** The libraries at startup: [NewClient] succeeds, [client.Connect] and
    [app.Listen] answer as given. *)
Definition libs (connect : option error) (listen : listening) : LibEnv unit := fun X call =>
  match call in libcall X return unit -> X * unit with
  | NewClient uri => fun u => ((Some (mongo.mkClient uri), None), u)
  | ClientConnect _ _ => fun u => (connect, u)
  | Listen _ => fun u => (listen, u)
  end.

Definition timeout : error := ErrorString "context deadline exceeded".

(** What [BodyParser] reports on a body cut short. *)
Definition truncated : error := ErrorString "unexpected end of JSON input".

End Scenario.

(* ===================================================================== *)
(** ** The documents of the service and their identifiers                 *)
(* ===================================================================== *)

Module Keyed.

(** The identifier of a stored document, when it is an ObjectID. *)
Definition oid_of (d : bson.D) : option primitive.ObjectID :=
  match bson.lookup "_id" d with
  | Some (bson.ObjectID id) => Some id
  | _ => None
  end.

(** Every document is keyed by an ObjectID, and no two by the same one. *)
Definition unique_ids (ds : list bson.D) : Prop :=
  Forall (fun d => oid_of d <> None) ds /\ NoDup (map oid_of ds).

(** The document the POST handler stores for the body [e] under the
    generated identifier [id], and the record it answers with. *)
Definition created_doc (id : primitive.ObjectID) (e : Employee) : bson.D :=
  [("_id", bson.ObjectID id); ("name", bson.Str (Name e));
   ("salary", bson.Double (Salary e)); ("age", bson.Double (Age e))].

Definition created (id : primitive.ObjectID) (e : Employee) : Employee :=
  mkEmployee (primitive.Hex id) (Name e) (Salary e) (Age e).

End Keyed.

(* ===================================================================== *)
(** ** Facts about the values                                             *)
(* ===================================================================== *)

Lemma error_eqb_ErrNoDocuments (err : error) :
  error_eqb err ErrNoDocuments = true <-> err = ErrNoDocuments.
Proof.
  destruct err; simpl; split; intro H; try reflexivity; discriminate.
Qed.

Lemma byte_eqb_eq (a b : byte) : Byte.eqb a b = true -> a = b.
Proof.
  intro H. apply Byte.byte_dec_bl in H. exact H.
Qed.

Lemma oid_eqb_refl (id : primitive.ObjectID) : primitive.eqb id id = true.
Proof.
  induction id as [|b id IH]; simpl.
  - reflexivity.
  - rewrite IH. replace (Byte.eqb b b) with true; [reflexivity|].
    symmetry. apply Byte.byte_dec_lb. reflexivity.
Qed.

Lemma oid_eqb_eq (a b : primitive.ObjectID) : primitive.eqb a b = true -> a = b.
Proof.
  revert b. induction a as [|x a IH]; intros [|y b] H; simpl in H;
    try reflexivity; try discriminate.
  apply andb_true_iff in H. destruct H as [Hxy Hab].
  apply byte_eqb_eq in Hxy. apply IH in Hab. congruence.
Qed.

Lemma hex_length (bs : list byte) :
  String.length (hex.EncodeToString bs) = (2 * List.length bs)%nat.
Proof.
  induction bs as [|b bs IH]; simpl.
  - reflexivity.
  - rewrite IH. lia.
Qed.

(* ===================================================================== *)
(** ** The handlers over any driver                                       *)
(* ===================================================================== *)

Section AnyDriver.

Context {S : Type} (env : Env S) (coll : mongo.Collection).

Lemma run_bind (A B : Type) (p : Prog handlerE A) (f : A -> Prog handlerE B) (w : World S) :
  run env (bind p f) w = let (a, w') := run env p w in run env (f a) w'.
Proof.
  revert w. induction p as [a | X e k IH]; intro w; simpl.
  - reflexivity.
  - destruct (step env e w) as [x w']. apply IH.
Qed.

(** Fiber's error handler touches the response only. *)
Lemma serve_store (h : Handler) (ctx : fiber.Ctx) (s : S) :
  store (serve env h ctx s) = store (snd (run env (h ctx) (World0 s))).
Proof.
  unfold serve. destruct (run env (h ctx) (World0 s)) as [[e|] w]; reflexivity.
Qed.

Lemma serve_calls (h : Handler) (ctx : fiber.Ctx) (s : S) :
  calls (serve env h ctx s) = calls (snd (run env (h ctx) (World0 s))).
Proof.
  unfold serve. destruct (run env (h ctx) (World0 s)) as [[e|] w]; reflexivity.
Qed.

Lemma serve_writes (h : Handler) (ctx : fiber.Ctx) (s : S) :
  writes (serve env h ctx s) = writes (snd (run env (h ctx) (World0 s))).
Proof.
  unfold serve. destruct (run env (h ctx) (World0 s)) as [[e|] w]; reflexivity.
Qed.

(** C6: a path identifier that [ObjectIDFromHex] rejects makes both the PUT
    and the DELETE handler answer 400 without a single driver call: the log
    of calls is empty and the store is in the state it was. *)
Theorem malformed_id_400_before_any_store_call
  (ctx : fiber.Ctx) (s : S) (err : error) :
  primitive.ObjectIDFromHex (fiber.Params ctx "id") = inr err ->
  let wp := serve env (putEmployee coll) ctx s in
  let wd := serve env (deleteEmployee coll) ctx s in
  (fiber.StatusCode (response wp) = 400 /\ calls wp = [] /\ store wp = s) /\
  (fiber.StatusCode (response wd) = 400 /\ calls wd = [] /\ store wd = s).
Proof.
  intro Hid. unfold serve, putEmployee, deleteEmployee. rewrite Hid. simpl.
  split; (split; [|split]); reflexivity.
Qed.

(** C4: with a well-formed identifier the DELETE handler answers by the
    outcome of [DeleteOne]: a count of at least one gives 200 with the JSON
    of the literal "record deleted...", a count of zero gives 404, and an
    error of the operation gives 500. *)
Theorem deleteEmployee_status_by_outcome
  (ctx : fiber.Ctx) (s : S) (employeeID : primitive.ObjectID) :
  primitive.ObjectIDFromHex (fiber.Params ctx "id") = inl employeeID ->
  let w := serve env (deleteEmployee coll) ctx s in
  let outcome := fst (env _ (mongo.DeleteOne coll [("_id", bson.ObjectID employeeID)]) s) in
  (forall result, outcome = inl result -> 1 <= mongo.DeletedCount result ->
     response w = fiber.mkResponse 200 (fiber.JSONOf (fiber.AString "record deleted..."))
                                   "application/json") /\
  (forall result, outcome = inl result -> mongo.DeletedCount result = 0 ->
     fiber.StatusCode (response w) = 404) /\
  (forall e, outcome = inr e -> fiber.StatusCode (response w) = 500).
Proof.
  intro Hid. unfold serve, deleteEmployee. rewrite Hid. simpl.
  destruct (env _ (mongo.DeleteOne coll [("_id", bson.ObjectID employeeID)]) s)
    as [[result | e] s'] eqn:Hdel; simpl.
  - split; [|split].
    + intros r Hr Hcount. injection Hr as <-.
      destruct (mongo.DeletedCount result <? 1) eqn:Hlt.
      * apply Z.ltb_lt in Hlt. lia.
      * reflexivity.
    + intros r Hr Hcount. injection Hr as <-. rewrite Hcount. reflexivity.
    + intros e He. discriminate He.
  - split; [|split].
    + intros r Hr. discriminate Hr.
    + intros r Hr. discriminate Hr.
    + intros e' _. reflexivity.
Qed.

(** C5, as amended: when the identifier is well formed, the body parses and
    [FindOneAndUpdate] reports no error, the PUT handler sets status 200 and
    hands [c.JSON] the parsed body whose identifier is the path parameter as
    it was written; [FindOneAndUpdate] is its only driver call (nothing is
    read back).  When that record encodes, the answer is 200 with its JSON;
    when its salary or age is NaN or infinite, [c.JSON] writes nothing and
    returns the encoder's error, the handler returns it, and the answer is
    500 with the error text. *)
Theorem putEmployee_success_echoes_body
  (ctx : fiber.Ctx) (s s' : S) (employeeID : primitive.ObjectID)
  (employee : Employee) (sr : mongo.SingleResult) :
  primitive.ObjectIDFromHex (fiber.Params ctx "id") = inl employeeID ->
  fiber.BodyParser ctx new_Employee = (employee, None) ->
  env _ (mongo.FindOneAndUpdate coll (put_query employeeID) (put_update employee)) s
    = (sr, s') ->
  mongo.Err sr = None ->
  let w := serve env (putEmployee coll) ctx s in
  let echoed := set_ID employee (fiber.Params ctx "id") in
  response w =
    match fiber.Marshal (fiber.AEmployee echoed) with
    | None => fiber.mkResponse 200 (fiber.JSONOf (fiber.AEmployee echoed)) "application/json"
    | Some jerr => fiber.mkResponse 500 (fiber.Text (Error jerr)) "text/plain; charset=utf-8"
    end /\
  writes w = [fiber.Status 200; fiber.JSON (fiber.AEmployee echoed)] /\
  calls w = [log (mongo.FindOneAndUpdate coll (put_query employeeID) (put_update employee))] /\
  store w = s'.
Proof.
  intros Hid Hbody Hupd Herr. unfold serve, putEmployee.
  rewrite Hid, Hbody. cbn -[fiber.Marshal]. rewrite Hupd. cbn -[fiber.Marshal].
  rewrite Herr. cbn -[fiber.Marshal].
  destruct (fiber.Marshal (fiber.AEmployee (set_ID employee (fiber.Params ctx "id"))));
    (split; [|split; [|split]]); reflexivity.
Qed.

(** C1, as the code behaves: when [cursor.All] fails, the GET handler writes
    status 500 and the error text and then goes on to [c.JSON(employees)]:
    three writes are made, and when the slice encodes (as the empty slice
    does) the final body is the JSON array, not the error text.  When the
    slice holds a number without JSON, that third write fails and Fiber's
    error handler answers with the encoder's error. *)
Theorem getEmployee_All_failure_falls_through
  (ctx : fiber.Ctx) (s s1 s2 : S) (cursor : mongo.Cursor)
  (employees : list Employee) (err : error) :
  env _ (mongo.Find coll [("", bson.Null)]) s = (inl cursor, s1) ->
  env _ (mongo.All cursor []) s1 = ((employees, Some err), s2) ->
  let w := serve env (getEmployee coll) ctx s in
  writes w = [fiber.Status 500; fiber.SendString (Error err);
              fiber.JSON (fiber.AEmployees employees)] /\
  response w =
    match fiber.Marshal (fiber.AEmployees employees) with
    | None => fiber.mkResponse 500 (fiber.JSONOf (fiber.AEmployees employees))
                               "application/json"
    | Some jerr => fiber.mkResponse 500 (fiber.Text (Error jerr)) "text/plain; charset=utf-8"
    end.
Proof.
  intros Hfind Hall. unfold serve, getEmployee. cbn -[fiber.Marshal].
  rewrite Hfind. cbn -[fiber.Marshal]. rewrite Hall. cbn -[fiber.Marshal].
  destruct (fiber.Marshal (fiber.AEmployees employees)); split; reflexivity.
Qed.

(** C9: in the POST handler the error of [Decode] is dropped.  After a
    successful insertion the handler sets status 201 and hands [c.JSON] what
    [Decode] left in [createdEmployee], whatever error [Decode] reported: the
    answer does not depend on that error.  It is 201 with the JSON of the
    record whenever the record encodes, as the zero record does that is left
    when [Decode] fills nothing; a record with a number that has no JSON
    makes [c.JSON] fail and the answer 500. *)
Theorem postEmployee_decode_error_swallowed
  (ctx : fiber.Ctx) (s s1 s2 s3 : S) (employee createdEmployee : Employee)
  (insertionResult : mongo.InsertOneResult) (createdRecord : mongo.SingleResult)
  (derr : option error) :
  fiber.BodyParser ctx new_Employee = (employee, None) ->
  env _ (mongo.InsertOne coll (set_ID employee "")) s = (inl insertionResult, s1) ->
  env _ (mongo.FindOne coll [("_id", mongo.InsertedID insertionResult)]) s1
    = (createdRecord, s2) ->
  env _ (mongo.Decode createdRecord new_Employee) s2 = ((createdEmployee, derr), s3) ->
  let w := serve env (postEmployee coll) ctx s in
  writes w = [fiber.Status 201; fiber.JSON (fiber.AEmployee createdEmployee)] /\
  response w =
    match fiber.Marshal (fiber.AEmployee createdEmployee) with
    | None => fiber.mkResponse 201 (fiber.JSONOf (fiber.AEmployee createdEmployee))
                               "application/json"
    | Some jerr => fiber.mkResponse 500 (fiber.Text (Error jerr)) "text/plain; charset=utf-8"
    end /\
  (createdEmployee = new_Employee ->
   response w = fiber.mkResponse 201 (fiber.JSONOf (fiber.AEmployee new_Employee))
                                 "application/json").
Proof.
  intros Hbody Hins Hfind Hdec. unfold serve, postEmployee.
  rewrite Hbody. cbn -[fiber.Marshal]. rewrite Hins. cbn -[fiber.Marshal].
  rewrite Hfind. cbn -[fiber.Marshal]. rewrite Hdec. cbn -[fiber.Marshal].
  split; [|split].
  - destruct (fiber.Marshal (fiber.AEmployee createdEmployee)); reflexivity.
  - destruct (fiber.Marshal (fiber.AEmployee createdEmployee)); reflexivity.
  - intros ->. reflexivity.
Qed.

End AnyDriver.

(** C5, as stated, fails: a successful update need not answer 200.  Bo is
    sent to Ann's identifier with a salary that is not a number (a form body
    [name=Bo&salary=NaN&age=41] parses so); the identifier is well formed,
    the body parses and Ann's document is matched and updated, but the
    record has no JSON: [c.JSON] returns the encoder's error and the answer
    is 500 with its text. *)
Lemma putEmployee_nan_salary_answers_500 :
  let ctx := MongoModel.request Scenario.hex0 (Scenario.bo_nan, None) in
  let w := serve MongoModel.env (putEmployee Scenario.employees) ctx Scenario.with_ann in
  primitive.ObjectIDFromHex (fiber.Params ctx "id") = inl Scenario.oid0 /\
  fiber.BodyParser ctx new_Employee = (Scenario.bo_nan, None) /\
  (exists d', MongoModel.docs (store w) = [d'] /\
              bson.lookup "_id" d' = Some (bson.ObjectID Scenario.oid0) /\
              bson.lookup "name" d' = Some (bson.Str "Bo")) /\
  response w = fiber.mkResponse 500 (fiber.Text "json: unsupported value: NaN")
                                "text/plain; charset=utf-8".
Proof.
  split; [reflexivity|]. split; [reflexivity|]. split.
  - eexists. split; [reflexivity|]. split; reflexivity.
  - reflexivity.
Qed.

(* ===================================================================== *)
(** ** The handlers over the reference store                              *)
(* ===================================================================== *)

Module StoreFacts.
Import MongoModel.

Lemma Value_eqb_ObjectID (id : primitive.ObjectID) (v : bson.Value) :
  bson.Value_eqb (bson.ObjectID id) v = true -> v = bson.ObjectID id.
Proof.
  destruct v; simpl; intro H; try discriminate.
  apply oid_eqb_eq in H. congruence.
Qed.

Lemma lookup_set_field (key k : string) (v : bson.Value) (d : bson.D) :
  bson.lookup k (set_field key v d) =
  if String.eqb k key then Some v else bson.lookup k d.
Proof.
  induction d as [|[k' v'] d IH]; simpl.
  - reflexivity.
  - destruct (String.eqb key k') eqn:Hkey; simpl.
    + apply String.eqb_eq in Hkey. subst k'.
      destruct (String.eqb k key); reflexivity.
    + destruct (String.eqb k k') eqn:Hk.
      * apply String.eqb_eq in Hk. subst k'.
        rewrite String.eqb_sym, Hkey. reflexivity.
      * exact IH.
Qed.

(** What [find_first] returns splits the collection at the first document
    the filter selects. *)
Lemma find_first_Some (filter : bson.D) (ds pre post : list bson.D) (d : bson.D) :
  find_first filter ds = Some (pre, d, post) ->
  ds = pre ++ d :: post /\ matches filter d = true /\
  forallb (fun x => negb (matches filter x)) pre = true.
Proof.
  revert pre. induction ds as [|x ds IH]; intros pre H; simpl in H.
  - discriminate.
  - destruct (matches filter x) eqn:Hm.
    + injection H as <- <- <-. simpl. auto.
    + destruct (find_first filter ds) as [[[pre' d'] post']|]; [|discriminate].
      injection H as <- <- <-.
      destruct (IH pre' eq_refl) as (-> & Hd & Hpre).
      simpl. rewrite Hm. simpl. auto.
Qed.

Lemma matches_put_query (id : primitive.ObjectID) (d : bson.D) :
  matches (put_query id) d = has_id (bson.ObjectID id) d.
Proof.
  unfold matches, put_query, has_id. simpl.
  destruct (bson.lookup "_id" d); simpl.
  - apply andb_true_r.
  - reflexivity.
Qed.

(** A document appended to a collection that holds no document of its
    identifier is the first one its identifier selects. *)
Lemma find_first_fresh (id : primitive.ObjectID) (ds : list bson.D) (d : bson.D) :
  existsb (has_id (bson.ObjectID id)) ds = false ->
  has_id (bson.ObjectID id) d = true ->
  find_first (put_query id) (ds ++ [d]) = Some (ds, d, []).
Proof.
  intros Hds Hd. induction ds as [|x ds IH]; cbn [app find_first].
  - rewrite matches_put_query, Hd. reflexivity.
  - cbn [existsb] in Hds. apply orb_false_iff in Hds. destruct Hds as [Hx Hds].
    rewrite matches_put_query, Hx, (IH Hds). reflexivity.
Qed.

(** The update the PUT handler builds, applied to any document: it always
    applies, the three fields get the values of the request, and the value
    under every other key is the one the document had. *)
Lemma put_update_frame (employee : Employee) (d : bson.D) :
  exists d',
    apply_update (put_update employee) d = inl d' /\
    bson.lookup "name" d' = Some (bson.Str (Name employee)) /\
    bson.lookup "age" d' = Some (bson.Double (Age employee)) /\
    bson.lookup "salary" d' = Some (bson.Double (Salary employee)) /\
    (forall key, key <> "name" -> key <> "age" -> key <> "salary" ->
       bson.lookup key d' = bson.lookup key d).
Proof.
  eexists. split; [reflexivity|]. unfold set_fields. simpl.
  repeat rewrite lookup_set_field. simpl.
  split; [reflexivity|]. split; [reflexivity|]. split; [reflexivity|].
  intros key Hn Ha Hs. repeat rewrite lookup_set_field.
  apply String.eqb_neq in Hn, Ha, Hs. rewrite Hn, Ha, Hs. reflexivity.
Qed.

Lemma next_fault_healthy (n : nat) (s : Store) :
  no_fault (S n) s = true ->
  exists s', next_fault s = (None, s') /\ docs s' = docs s /\
             generator s' = generator s /\ faults s' = tl (faults s).
Proof.
  unfold no_fault, next_fault.
  destruct (faults s) as [|[e|] fs] eqn:Hf; simpl; intro H.
  - exists s. rewrite Hf. auto.
  - discriminate.
  - eexists. split; [reflexivity|]. simpl. auto.
Qed.

Lemma no_fault_tl (n : nat) (s s' : Store) :
  no_fault (S n) s = true -> faults s' = tl (faults s) -> no_fault n s' = true.
Proof.
  unfold no_fault. intros H ->. destruct (faults s) as [|[e|] fs]; simpl in *.
  - destruct n; reflexivity.
  - discriminate.
  - exact H.
Qed.

Lemma NewObjectID_length (g : Generator) : List.length (NewObjectID g) = 12%nat.
Proof.
  unfold NewObjectID.
  assert (H : forall len m, List.length (be_bytes len m) = len).
  { induction len as [|len IH]; intro m; simpl.
    - reflexivity.
    - rewrite length_app, IH. simpl. lia. }
  rewrite !length_app, !H. reflexivity.
Qed.

End StoreFacts.

Section OnTheStore.
Import MongoModel.

Variable coll : mongo.Collection.

(** C3: with a well-formed identifier that selects no stored document, the
    PUT handler leaves the collection of the reference store as it was
    (nothing is inserted) and, the store being reachable, answers 400; and
    over any driver, an error of [FindOneAndUpdate] is answered with 400 when
    it is [ErrNoDocuments] and with 500 when it is any other error, after
    that one driver call. *)
Theorem putEmployee_unmatched_id_400_other_failure_500
  (ctx : fiber.Ctx) (employeeID : primitive.ObjectID) :
  primitive.ObjectIDFromHex (fiber.Params ctx "id") = inl employeeID ->
  (forall s : Store,
     find_first (put_query employeeID) (docs s) = None ->
     let w := serve env (putEmployee coll) ctx s in
     docs (store w) = docs s /\
     (fst (next_fault s) = None -> fiber.StatusCode (response w) = 400)) /\
  (forall (S : Type) (drv : Env S) (s s' : S) (employee : Employee)
          (sr : mongo.SingleResult) (err : error),
     fiber.BodyParser ctx new_Employee = (employee, None) ->
     drv _ (mongo.FindOneAndUpdate coll (put_query employeeID) (put_update employee)) s
       = (sr, s') ->
     mongo.Err sr = Some err ->
     let w := serve drv (putEmployee coll) ctx s in
     fiber.StatusCode (response w) = (if error_eqb err ErrNoDocuments then 400 else 500) /\
     calls w = [log (mongo.FindOneAndUpdate coll (put_query employeeID)
                       (put_update employee))]).
Proof.
  intro Hid. split.
  - intros s Hnone. unfold serve, putEmployee. rewrite Hid.
    destruct (fiber.BodyParser ctx new_Employee) as [employee [perr|]].
    + simpl. split; reflexivity.
    + cbn -[put_query put_update find_first]. unfold next_fault.
      destruct (faults s) as [|[e|] fs]; cbn -[put_query put_update find_first].
      * unfold find_one_and_update. rewrite Hnone. simpl. split; reflexivity.
      * split; [|discriminate].
        destruct (error_eqb e ErrNoDocuments); reflexivity.
      * unfold find_one_and_update. cbn -[put_query put_update find_first].
        rewrite Hnone. simpl. split; reflexivity.
  - intros S drv s s' employee sr err Hbody Hupd Herr.
    unfold serve, putEmployee. rewrite Hid, Hbody. simpl.
    rewrite Hupd. simpl. rewrite Herr. simpl.
    destruct (error_eqb err ErrNoDocuments); split; reflexivity.
Qed.

(** C8: the update of the PUT handler, run on the reference store for a
    request whose identifier selects the document [d]: the collection keeps
    every other document, and in place of [d] holds a document with the
    name, age and salary of the request and, under every other key ([_id]
    among them), the value [d] had. *)
Theorem putEmployee_sets_only_name_age_salary
  (ctx : fiber.Ctx) (employeeID : primitive.ObjectID) (employee : Employee)
  (s : Store) (pre post : list bson.D) (d : bson.D) :
  primitive.ObjectIDFromHex (fiber.Params ctx "id") = inl employeeID ->
  fiber.BodyParser ctx new_Employee = (employee, None) ->
  fst (next_fault s) = None ->
  find_first (put_query employeeID) (docs s) = Some (pre, d, post) ->
  let w := serve env (putEmployee coll) ctx s in
  exists d' : bson.D,
    docs s = pre ++ d :: post /\
    docs (store w) = pre ++ d' :: post /\
    calls w = [log (mongo.FindOneAndUpdate coll (put_query employeeID) (put_update employee))] /\
    bson.lookup "name" d' = Some (bson.Str (Name employee)) /\
    bson.lookup "age" d' = Some (bson.Double (Age employee)) /\
    bson.lookup "salary" d' = Some (bson.Double (Salary employee)) /\
    (forall key, key <> "name" -> key <> "age" -> key <> "salary" ->
       bson.lookup key d' = bson.lookup key d) /\
    bson.lookup "_id" d' = Some (bson.ObjectID employeeID).
Proof.
  intros Hid Hbody Hfault Hfind.
  destruct (StoreFacts.put_update_frame employee d)
    as (d' & Happly & Hname & Hage & Hsalary & Hframe).
  destruct (StoreFacts.find_first_Some _ _ _ _ _ Hfind) as (Hdocs & Hmatch & _).
  exists d'.
  assert (Hrun : docs (store (serve env (putEmployee coll) ctx s)) = pre ++ d' :: post /\
                 calls (serve env (putEmployee coll) ctx s) =
                 [log (mongo.FindOneAndUpdate coll (put_query employeeID)
                         (put_update employee))]).
  { rewrite serve_store, serve_calls. unfold putEmployee. rewrite Hid, Hbody.
    cbn -[put_query put_update find_first apply_update next_fault fiber.Marshal].
    destruct (next_fault s) as [f s1] eqn:Hnf. simpl in Hfault. subst f.
    assert (Hs1 : docs s1 = docs s /\ generator s1 = generator s).
    { unfold next_fault in Hnf. destruct (faults s); injection Hnf; intros; subst; auto. }
    destruct Hs1 as [Hd1 Hc1].
    unfold find_one_and_update. rewrite Hd1, Hfind, Happly.
    cbn -[put_query put_update fiber.Marshal].
    destruct (fiber.Marshal (fiber.AEmployee (set_ID employee (fiber.Params ctx "id"))));
      split; reflexivity. }
  destruct Hrun as [Hstore Hcalls]. cbv zeta. rewrite Hstore, Hcalls.
  repeat (split; [assumption || reflexivity|]).
  rewrite Hframe by discriminate.
  rewrite StoreFacts.matches_put_query in Hmatch. unfold has_id in Hmatch.
  destruct (bson.lookup "_id" d) as [v|]; [|discriminate].
  apply StoreFacts.Value_eqb_ObjectID in Hmatch. congruence.
Qed.

End OnTheStore.

Section Create.
Import MongoModel Keyed.

Variable coll : mongo.Collection.

(** The run of the POST handler on a body that parses, over a store that
    meets no fault in the two round trips and holds no document of the
    identifier generated next: what [c.JSON] returns, and the world. *)
Lemma postEmployee_run (ctx : fiber.Ctx) (employee : Employee) (s : Store) :
  fiber.BodyParser ctx new_Employee = (employee, None) ->
  no_fault 2 s = true ->
  existsb (has_id (bson.ObjectID (NewObjectID (generator s)))) (docs s) = false ->
  let id := NewObjectID (generator s) in
  run env (postEmployee coll ctx) (World0 s) =
  (fiber.Marshal (fiber.AEmployee (created id employee)),
   mkWorld (match fiber.Marshal (fiber.AEmployee (created id employee)) with
            | None => fiber.mkResponse 201 (fiber.JSONOf (fiber.AEmployee (created id employee)))
                                       "application/json"
            | Some _ => fiber.mkResponse 201 fiber.NoBody ""
            end)
           [fiber.Status 201; fiber.JSON (fiber.AEmployee (created id employee))]
           [log (mongo.InsertOne coll (set_ID employee ""));
            log (mongo.FindOne coll [("_id", bson.ObjectID id)]);
            log (mongo.Decode (mongo.mkSingleResult None (created_doc id employee))
                              new_Employee)]
           (mkStore (docs s ++ [created_doc id employee]) (tl (tl (faults s)))
                    (increment (generator s)))).
Proof.
  intros Hbody Hok Hfresh.
  destruct (StoreFacts.next_fault_healthy _ _ Hok) as (s1 & Hnf1 & Hd1 & Hc1 & Hf1).
  pose proof (StoreFacts.no_fault_tl _ _ s1 Hok Hf1) as Hok1.
  unfold postEmployee. rewrite Hbody.
  cbn -[next_fault insert find_first Unmarshal NewObjectID increment primitive.Hex
        fiber.Marshal].
  rewrite Hnf1. unfold insert.
  cbn -[next_fault find_first Unmarshal NewObjectID increment primitive.Hex existsb
        fiber.Marshal].
  rewrite Hc1, Hd1, Hfresh.
  cbn -[next_fault find_first Unmarshal NewObjectID increment primitive.Hex existsb
        fiber.Marshal].
  match goal with
  | |- context [next_fault ?s2] =>
      destruct (StoreFacts.next_fault_healthy 0 s2 Hok1) as (s3 & Hnf3 & Hd3 & Hc3 & Hf3)
  end.
  rewrite Hnf3. rewrite Hd3. cbn [docs].
  change [("_id", bson.ObjectID (NewObjectID (generator s)))]
    with (put_query (NewObjectID (generator s))).
  rewrite (StoreFacts.find_first_fresh _ _ _ Hfresh).
  - cbn -[NewObjectID increment primitive.Hex fiber.Marshal].
    cbn [faults generator docs] in Hd3, Hc3, Hf3.
    destruct s3 as [d3 f3 c3]. cbn [faults generator docs] in Hd3, Hc3, Hf3.
    subst d3 c3 f3. rewrite Hf1.
    fold (created (NewObjectID (generator s)) employee).
    destruct (fiber.Marshal (fiber.AEmployee (created (NewObjectID (generator s)) employee)));
      reflexivity.
  - unfold has_id. cbn -[NewObjectID]. apply oid_eqb_refl.
Qed.

(** What such a POST leaves in the store, whether or not the answer encodes. *)
Lemma postEmployee_store (ctx : fiber.Ctx) (employee : Employee) (s : Store) :
  fiber.BodyParser ctx new_Employee = (employee, None) ->
  no_fault 2 s = true ->
  existsb (has_id (bson.ObjectID (NewObjectID (generator s)))) (docs s) = false ->
  store (serve env (postEmployee coll) ctx s) =
  mkStore (docs s ++ [created_doc (NewObjectID (generator s)) employee])
          (tl (tl (faults s))) (increment (generator s)).
Proof.
  intros Hbody Hok Hfresh. rewrite serve_store.
  rewrite (postEmployee_run ctx employee s Hbody Hok Hfresh). reflexivity.
Qed.



End Create.


(** The identifier the driver generates can be told in advance, and the
    handler does not compare it with the client's: Ann was created under
    [hex0]; a client that sends Bo with the identifier that follows gets Bo
    back under the identifier it sent. *)
Lemma postEmployee_predicted_id_is_returned :
  let w := serve MongoModel.env (postEmployee Scenario.employees)
             (MongoModel.request "" (Scenario.bo_predicting, None)) Scenario.with_ann in
  exists e : Employee,
    response w = fiber.mkResponse 201 (fiber.JSONOf (fiber.AEmployee e)) "application/json" /\
    ID e = ID Scenario.bo_predicting.
Proof.
  eexists. split; reflexivity.
Qed.

(* ===================================================================== *)
(** ** Startup                                                            *)
(* ===================================================================== *)

Section Startup.

Context {S : Type} (env : LibEnv S).

(** [Connect] stores into [mg] only on the path that returns nil. *)
Lemma Connect_mg_frame (w : Process S) :
  let r := exec env Connect w in
  match fst r with
  | inl None =>
      exists cl, mg (snd r) = mkMongoInstance (Some cl) (Some (mongo.mkDatabase cl dbName))
  | _ => mg (snd r) = mg w
  end.
Proof.
  unfold Connect. simpl.
  destruct (env _ (NewClient mongoURI) (world w)) as [[[cl|] e0] s1]; simpl.
  - destruct (env _ (ClientConnect cl 30) s1) as [[err|] s2]; simpl.
    + reflexivity.
    + exists cl. reflexivity.
  - reflexivity.
Qed.

(** C10: when [Connect] returns an error, the global [mg], zero before the
    call, is still the zero value: the assignment to [mg] is behind the
    error check. *)
Theorem Connect_error_keeps_mg_zero (w w' : Process S) (err : error) :
  mg w = MongoInstance0 ->
  exec env Connect w = (inl (Some err), w') ->
  mg w' = mg w /\ mg w' = MongoInstance0.
Proof.
  intros Hzero Hrun. pose proof (Connect_mg_frame w) as H.
  cbv zeta in H. rewrite Hrun in H. cbn [fst snd] in H. split; congruence.
Qed.

(** C7: when [client.Connect] reports an error, [main] stops in [log.Fatal]:
    the process exits with status 1 after printing the error, one connection
    attempt was made, no route was registered and [app.Listen] was never
    called. *)
Theorem main_connect_failure_is_fatal
  (s s1 s2 : S) (client : mongo.Client) (e0 : option error) (err : error) :
  env _ (NewClient mongoURI) s = ((Some client, e0), s1) ->
  env _ (ClientConnect client 30) s1 = (Some err, s2) ->
  let r := exec env main (Process0 s) in
  fst r = inr (Exit 1) /\
  trace (snd r) = [DidNewClient mongoURI; DidConnect client 30;
                   DidFatal ("Error: %v" ++ Error err)] /\
  stderr (snd r) = [("Error: %v" ++ Error err)%string] /\
  connect_attempts (snd r) = 1%nat /\
  server_started (snd r) = false.
Proof.
  intros Hnew Hconn. unfold main, Connect.
  cbn -[mongoURI String.append Error]. rewrite Hnew.
  cbn -[mongoURI String.append Error]. rewrite Hconn.
  cbn -[mongoURI String.append Error].
  repeat (split; [reflexivity|]). reflexivity.
Qed.

(** A nil client ([mongo.NewClient] failed) panics in [client.Connect]; the
    server does not start either. *)
Lemma main_nil_client_panics (s s1 : S) (e0 : option error) :
  env _ (NewClient mongoURI) s = ((None, e0), s1) ->
  let r := exec env main (Process0 s) in
  fst r = inr Panic /\ server_started (snd r) = false.
Proof.
  intro Hnew. unfold main, Connect.
  cbn -[mongoURI]. rewrite Hnew. cbn -[mongoURI]. split; reflexivity.
Qed.

End Startup.

(* ===================================================================== *)
(** ** The theorems at the concrete scenarios                             *)
(* ===================================================================== *)

Module Instances.
Import Scenario.

(** A collection with a document that does not decode: 500 and then the JSON
    of the still empty slice. *)
Lemma getEmployee_All_failure_on_odd_doc :
  let w := serve MongoModel.env (getEmployee employees) (MongoModel.request "" (bo, None))
             with_odd_doc in
  writes w =
    [fiber.Status 500;
     fiber.SendString "error decoding key name: cannot decode double into a string type";
     fiber.JSON (fiber.AEmployees [])] /\
  response w = fiber.mkResponse 500 (fiber.JSONOf (fiber.AEmployees [])) "application/json".
Proof.
  apply (getEmployee_All_failure_falls_through MongoModel.env employees
           (MongoModel.request "" (bo, None)) with_odd_doc with_odd_doc with_odd_doc
           (mongo.mkCursor [ann_doc; odd_doc]) []
           (ErrorString "error decoding key name: cannot decode double into a string type")
           eq_refl eq_refl).
Defined.


(** Bo sent to an identifier nobody has: 400, Ann's document untouched; the
    same request while the server is unreachable: 500. *)
Lemma putEmployee_unknown_id_on_with_ann :
  (let w := serve MongoModel.env (putEmployee employees) (MongoModel.request hex9 (bo, None))
              with_ann in
   fiber.StatusCode (response w) = 400 /\ MongoModel.docs (store w) = [ann_doc]) /\
  fiber.StatusCode
    (response (serve MongoModel.env (putEmployee employees)
                 (MongoModel.request hex9 (bo, None)) unreachable)) = 500.
Proof.
  destruct (putEmployee_unmatched_id_400_other_failure_500 employees
              (MongoModel.request hex9 (bo, None)) oid9)
    as [Hmiss Hfail]; [reflexivity|].
  split.
  - destruct (Hmiss with_ann eq_refl) as [Hdocs Hstatus].
    split; [apply Hstatus; reflexivity | exact Hdocs].
  - destruct (Hfail MongoModel.Store MongoModel.env unreachable
                (MongoModel.mkStore [ann_doc] [] gen1) bo
                (mongo.mkSingleResult (Some reset) []) reset eq_refl eq_refl eq_refl)
      as [Hstatus _].
    exact Hstatus.
Defined.

(** Deleting Ann's identifier where she is stored gives 200 and the literal;
    on the empty store the same request gives 404; on an unreachable store 500. *)
Lemma deleteEmployee_on_with_ann :
  response (serve MongoModel.env (deleteEmployee employees)
              (MongoModel.request hex0 (bo, None)) with_ann)
    = fiber.mkResponse 200 (fiber.JSONOf (fiber.AString "record deleted..."))
                       "application/json" /\
  fiber.StatusCode (response (serve MongoModel.env (deleteEmployee employees)
                                (MongoModel.request hex0 (bo, None)) empty)) = 404 /\
  fiber.StatusCode (response (serve MongoModel.env (deleteEmployee employees)
                                (MongoModel.request hex0 (bo, None)) unreachable)) = 500.
Proof.
  split; [|split].
  - destruct (deleteEmployee_status_by_outcome MongoModel.env employees
                (MongoModel.request hex0 (bo, None)) with_ann oid0 eq_refl)
      as (H200 & _ & _).
    eapply H200; [reflexivity | simpl; lia].
  - destruct (deleteEmployee_status_by_outcome MongoModel.env employees
                (MongoModel.request hex0 (bo, None)) empty oid0 eq_refl)
      as (_ & H404 & _).
    eapply H404; reflexivity.
  - destruct (deleteEmployee_status_by_outcome MongoModel.env employees
                (MongoModel.request hex0 (bo, None)) unreachable oid0 eq_refl)
      as (_ & _ & H500).
    eapply H500; reflexivity.
Defined.

(** Bo sent to Ann's identifier, written in upper-case hex digits: the
    answer carries the identifier as it was written. *)
Lemma putEmployee_bo_over_ann :
  let w := serve MongoModel.env (putEmployee employees)
             (MongoModel.request "6553F100A1B2C3D4E5000010" (bo, None)) with_ann in
  response w =
    fiber.mkResponse 200
      (fiber.JSONOf (fiber.AEmployee
         (mkEmployee "6553F100A1B2C3D4E5000010" "Bo" 2000%float 41%float)))
      "application/json" /\
  List.length (calls w) = 1%nat.
Proof.
  destruct (putEmployee_success_echoes_body MongoModel.env employees
              (MongoModel.request "6553F100A1B2C3D4E5000010" (bo, None))
              with_ann
              (MongoModel.mkStore
                 [[("_id", bson.ObjectID oid0); ("name", bson.Str "Bo");
                   ("salary", bson.Double 2000%float); ("age", bson.Double 41%float);
                   ("team", bson.Str "payroll")]]
                 [] gen1)
              oid0 bo (mongo.mkSingleResult None ann_doc)
              eq_refl eq_refl eq_refl eq_refl)
    as (Hresp & _ & Hcalls & _).
  split; [exact Hresp | rewrite Hcalls; reflexivity].
Defined.

(** An identifier that is not 24 hex digits: 400 from both handlers, and the
    store was not called. *)
Lemma malformed_id_on_with_ann :
  let wp := serve MongoModel.env (putEmployee employees)
              (MongoModel.request "ann" (bo, None)) with_ann in
  let wd := serve MongoModel.env (deleteEmployee employees)
              (MongoModel.request "6553f100a1b2c3d4e500001g" (bo, None)) with_ann in
  (fiber.StatusCode (response wp) = 400 /\ calls wp = [] /\ store wp = with_ann) /\
  (response wd = fiber.mkResponse 400
                   (fiber.Text "encoding/hex: invalid byte: U+0067 'g'") "" /\
   calls wd = [] /\ store wd = with_ann).
Proof.
  split.
  - apply (malformed_id_400_before_any_store_call MongoModel.env employees
             (MongoModel.request "ann" (bo, None)) with_ann ErrInvalidHex eq_refl).
  - destruct (malformed_id_400_before_any_store_call MongoModel.env employees
                (MongoModel.request "6553f100a1b2c3d4e500001g" (bo, None)) with_ann
                (InvalidByteError "g") eq_refl) as (_ & _ & Hcalls & Hstore).
    split; [reflexivity | split; [exact Hcalls | exact Hstore]].
Defined.

(** The connection times out at startup: exit 1, nothing listening. *)
Lemma main_on_connection_timeout :
  let r := exec (libs (Some timeout) Serves) main (Process0 tt) in
  fst r = inr (Exit 1) /\
  stderr (snd r) = ["Error: %vcontext deadline exceeded"] /\
  server_started (snd r) = false.
Proof.
  destruct (main_connect_failure_is_fatal (libs (Some timeout) Serves) tt tt tt
              client None timeout eq_refl eq_refl)
    as (Hexit & _ & Herr & _ & Hstarted).
  split; [exact Hexit | split; [exact Herr | exact Hstarted]].
Defined.

(** Bo over Ann's document, which has a field the service does not know:
    that field and the identifier stay. *)
Lemma putEmployee_keeps_other_fields_of_ann :
  exists d' : bson.D,
    MongoModel.docs (store (serve MongoModel.env (putEmployee employees)
                              (MongoModel.request hex0 (bo, None)) with_ann)) = [d'] /\
    bson.lookup "name" d' = Some (bson.Str "Bo") /\
    bson.lookup "team" d' = Some (bson.Str "payroll") /\
    bson.lookup "_id" d' = Some (bson.ObjectID oid0).
Proof.
  destruct (putEmployee_sets_only_name_age_salary employees
              (MongoModel.request hex0 (bo, None)) oid0 bo with_ann [] [] ann_doc
              eq_refl eq_refl eq_refl eq_refl)
    as (d' & _ & Hdocs & _ & Hname & _ & _ & Hframe & Hid).
  exists d'. split; [exact Hdocs|]. split; [exact Hname|]. split; [|exact Hid].
  rewrite Hframe; [reflexivity | discriminate | discriminate | discriminate].
Defined.

(** The read after the insertion fails: 201 with the zero record. *)
Lemma postEmployee_on_fails_after_insert :
  let w := serve MongoModel.env (postEmployee employees) (MongoModel.request "" (ann, None))
             fails_after_insert in
  writes w = [fiber.Status 201; fiber.JSON (fiber.AEmployee new_Employee)] /\
  response w = fiber.mkResponse 201 (fiber.JSONOf (fiber.AEmployee new_Employee))
                                "application/json".
Proof.
  destruct (postEmployee_decode_error_swallowed MongoModel.env employees
              (MongoModel.request "" (ann, None)) fails_after_insert
              (MongoModel.mkStore
                 [[("_id", bson.ObjectID oid0); ("name", bson.Str "Ann");
                   ("salary", bson.Double 1000%float); ("age", bson.Double 30%float)]]
                 [Some reset] gen1)
              (MongoModel.mkStore
                 [[("_id", bson.ObjectID oid0); ("name", bson.Str "Ann");
                   ("salary", bson.Double 1000%float); ("age", bson.Double 30%float)]]
                 [] gen1)
              (MongoModel.mkStore
                 [[("_id", bson.ObjectID oid0); ("name", bson.Str "Ann");
                   ("salary", bson.Double 1000%float); ("age", bson.Double 30%float)]]
                 [] gen1)
              ann new_Employee (mongo.mkInsertOneResult (bson.ObjectID oid0))
              (mongo.mkSingleResult (Some reset) []) (Some reset)
              eq_refl eq_refl eq_refl eq_refl)
    as (Hwrites & _ & Hzero).
  split; [exact Hwrites | exact (Hzero eq_refl)].
Defined.

(** The connection times out: [mg] is still the zero value. *)
Lemma Connect_on_connection_timeout :
  mg (snd (exec (libs (Some timeout) Serves) Connect (Process0 tt))) = MongoInstance0.
Proof.
  apply (Connect_error_keeps_mg_zero (libs (Some timeout) Serves) (Process0 tt)
           (snd (exec (libs (Some timeout) Serves) Connect (Process0 tt))) timeout
           eq_refl eq_refl).
Defined.

End Instances.

(* ===================================================================== *)
(** ** The normal paths                                                   *)
(* ===================================================================== *)

Module Normal.
Import Scenario.

(** The text of an ObjectID reads back as that ObjectID. *)
Lemma DecodeString_EncodeToString (bs : list byte) :
  hex.DecodeString (hex.EncodeToString bs) = inl bs.
Proof.
  induction bs as [|b bs IH].
  - reflexivity.
  - cbn [hex.EncodeToString hex.DecodeString]. rewrite IH.
    destruct b; reflexivity.
Qed.

Lemma ObjectIDFromHex_Hex (id : primitive.ObjectID) :
  List.length id = 12%nat -> primitive.ObjectIDFromHex (primitive.Hex id) = inl id.
Proof.
  intro Hlen. unfold primitive.ObjectIDFromHex, primitive.Hex.
  rewrite hex_length, Hlen, DecodeString_EncodeToString. reflexivity.
Qed.

(** When the connection is made, [main] publishes the session in [mg],
    registers the four routes and listens on port 3000. *)
Lemma main_connected_listens :
  let r := exec (libs None
                   (Returns (Some (ErrorString "listen tcp :3000: bind: address already in use"))))
             main (Process0 tt) in
  trace (snd r) =
    [DidNewClient mongoURI; DidConnect client 30;
     DidRoute "GET" "/employee"; DidRoute "POST" "/employee";
     DidRoute "PUT" "/employee/:id"; DidRoute "DELETE" "/employee/:id";
     DidListen ":3000";
     DidFatal "listen tcp :3000: bind: address already in use"] /\
  mg (snd r) = mkMongoInstance (Some client) (Some (mongo.mkDatabase client dbName)) /\
  server_started (snd r) = true.
Proof.
  split; [|split]; reflexivity.
Qed.

(** Listing the empty collection: 200 and the empty array. *)
Lemma getEmployee_on_empty :
  response (serve MongoModel.env (getEmployee employees) (MongoModel.request "" (bo, None)) empty)
  = fiber.mkResponse 200 (fiber.JSONOf (fiber.AEmployees [])) "application/json".
Proof. reflexivity. Qed.

(** Ann is created and then listed. *)
Lemma create_then_list :
  let w1 := serve MongoModel.env (postEmployee employees) (MongoModel.request "" (ann, None))
              empty in
  let w2 := serve MongoModel.env (getEmployee employees) (MongoModel.request "" (bo, None))
              (store w1) in
  response w2 =
    fiber.mkResponse 200
      (fiber.JSONOf (fiber.AEmployees [mkEmployee hex0 "Ann" 1000%float 30%float]))
      "application/json".
Proof. reflexivity. Qed.

(** Ann is deleted: 200, and 404 the second time. *)
Lemma delete_twice :
  let w1 := serve MongoModel.env (deleteEmployee employees)
              (MongoModel.request hex0 (bo, None)) with_ann in
  let w2 := serve MongoModel.env (deleteEmployee employees)
              (MongoModel.request hex0 (bo, None)) (store w1) in
  fiber.StatusCode (response w1) = 200 /\ MongoModel.docs (store w1) = [] /\
  response w2 = fiber.mkResponse 404 (fiber.StatusMessage 404) "".
Proof.
  split; [|split]; reflexivity.
Qed.

End Normal.

(* ===================================================================== *)
(** ** More on the handlers over any driver                               *)
(* ===================================================================== *)

Section AnyDriverMore.

Context {S : Type} (env : Env S) (coll : mongo.Collection).

(** X1: A body that [BodyParser] rejects: the POST and the PUT handler answer 400
    without a driver call and leave the store's state alone; the POST
    handler, and the PUT handler once the identifier parsed, send the
    parser's error text. *)
Theorem malformed_body_400_before_any_store_call
  (ctx : fiber.Ctx) (s : S) (employee : Employee) (err : error) :
  fiber.BodyParser ctx new_Employee = (employee, Some err) ->
  let wc := serve env (postEmployee coll) ctx s in
  let wu := serve env (putEmployee coll) ctx s in
  (writes wc = [fiber.Status 400; fiber.SendString (Error err)] /\
   calls wc = [] /\ store wc = s) /\
  (fiber.StatusCode (response wu) = 400 /\ calls wu = [] /\ store wu = s /\
   (forall employeeID,
      primitive.ObjectIDFromHex (fiber.Params ctx "id") = inl employeeID ->
      writes wu = [fiber.Status 400; fiber.SendString (Error err)])).
Proof.
  intro Hbody. unfold serve, postEmployee, putEmployee. rewrite Hbody.
  split.
  - simpl. split; [|split]; reflexivity.
  - destruct (primitive.ObjectIDFromHex (fiber.Params ctx "id")) as [id | e]; simpl.
    + split; [|split; [|split]]; reflexivity.
    + split; [|split; [|split]]; try reflexivity. intros ? H. discriminate H.
Qed.

(** X2: When [InsertOne] fails, the POST handler answers 500 with the error text
    and stops: [InsertOne] is its only driver call, nothing is read back. *)
Theorem postEmployee_insert_failure_500
  (ctx : fiber.Ctx) (s s1 : S) (employee : Employee) (err : error) :
  fiber.BodyParser ctx new_Employee = (employee, None) ->
  env _ (mongo.InsertOne coll (set_ID employee "")) s = (inr err, s1) ->
  let w := serve env (postEmployee coll) ctx s in
  response w = fiber.mkResponse 500 (fiber.Text (Error err)) "" /\
  writes w = [fiber.Status 500; fiber.SendString (Error err)] /\
  calls w = [log (mongo.InsertOne coll (set_ID employee ""))] /\
  store w = s1.
Proof.
  intros Hbody Hins. unfold serve, postEmployee. rewrite Hbody. simpl.
  rewrite Hins. simpl. split; [|split; [|split]]; reflexivity.
Qed.

(** X3: The identifier in the body of a POST request has no effect: two requests
    whose bodies parse alike up to the identifier leave the same response,
    the same log of writes and calls, and the same store. *)
Theorem postEmployee_ignores_body_id
  (ctx1 ctx2 : fiber.Ctx) (s : S) (employee : Employee) (id : string)
  (err : option error) :
  fiber.BodyParser ctx1 new_Employee = (employee, err) ->
  fiber.BodyParser ctx2 new_Employee = (set_ID employee id, err) ->
  serve env (postEmployee coll) ctx1 s = serve env (postEmployee coll) ctx2 s.
Proof.
  intros H1 H2. unfold serve, postEmployee. rewrite H1, H2.
  destruct err; reflexivity.
Qed.

(** X4: The identifier in the body of a PUT request has no effect either: with
    the same path parameter, two bodies that parse alike up to the identifier
    leave the same world. *)
Theorem putEmployee_ignores_body_id
  (ctx1 ctx2 : fiber.Ctx) (s : S) (employee : Employee) (id : string)
  (err : option error) :
  fiber.Params ctx1 "id" = fiber.Params ctx2 "id" ->
  fiber.BodyParser ctx1 new_Employee = (employee, err) ->
  fiber.BodyParser ctx2 new_Employee = (set_ID employee id, err) ->
  serve env (putEmployee coll) ctx1 s = serve env (putEmployee coll) ctx2 s.
Proof.
  intros Hp H1 H2. unfold serve, putEmployee. rewrite Hp, H1, H2.
  destruct (primitive.ObjectIDFromHex (fiber.Params ctx2 "id")); [|reflexivity].
  destruct err; reflexivity.
Qed.

(** X5: When [Find] fails, the GET handler answers 500 with the error text and
    returns: [cursor.All] is not called and nothing else is written. *)
Theorem getEmployee_Find_failure_500
  (ctx : fiber.Ctx) (s s1 : S) (err : error) :
  env _ (mongo.Find coll [("", bson.Null)]) s = (inr err, s1) ->
  let w := serve env (getEmployee coll) ctx s in
  response w = fiber.mkResponse 500 (fiber.Text (Error err)) "" /\
  writes w = [fiber.Status 500; fiber.SendString (Error err)] /\
  calls w = [log (mongo.Find coll [("", bson.Null)])].
Proof.
  intro Hfind. unfold serve, getEmployee. simpl. rewrite Hfind. simpl.
  split; [|split]; reflexivity.
Qed.

(** X6: When [Find] and [cursor.All] succeed, the GET handler makes the two
    driver calls and the single write [c.JSON(employees)], whose error it
    returns.  When the slice encodes the answer is 200 with its JSON; when a
    record holds a salary or age that is NaN or infinite, nothing is written
    and the answer is 500 with the encoder's error text. *)
Theorem getEmployee_success_200
  (ctx : fiber.Ctx) (s s1 s2 : S) (cursor : mongo.Cursor) (employees : list Employee) :
  env _ (mongo.Find coll [("", bson.Null)]) s = (inl cursor, s1) ->
  env _ (mongo.All cursor []) s1 = ((employees, None), s2) ->
  let w := serve env (getEmployee coll) ctx s in
  response w =
    match fiber.Marshal (fiber.AEmployees employees) with
    | None => fiber.mkResponse 200 (fiber.JSONOf (fiber.AEmployees employees))
                               "application/json"
    | Some jerr => fiber.mkResponse 500 (fiber.Text (Error jerr)) "text/plain; charset=utf-8"
    end /\
  writes w = [fiber.JSON (fiber.AEmployees employees)] /\
  calls w = [log (mongo.Find coll [("", bson.Null)]); log (mongo.All cursor [])].
Proof.
  intros Hfind Hall. unfold serve, getEmployee. cbn -[fiber.Marshal]. rewrite Hfind.
  cbn -[fiber.Marshal]. rewrite Hall. cbn -[fiber.Marshal].
  destruct (fiber.Marshal (fiber.AEmployees employees)); (split; [|split]); reflexivity.
Qed.

(** X7: The status codes a handler can answer with, whatever the request and
    whatever the driver does: 200 or 500 for GET; 201, 400 or 500 for POST;
    200, 400 or 500 for PUT; 200, 400, 404 or 500 for DELETE. *)
Theorem handler_status_codes (ctx : fiber.Ctx) (s : S) :
  In (fiber.StatusCode (response (serve env (getEmployee coll) ctx s))) [200; 500] /\
  In (fiber.StatusCode (response (serve env (postEmployee coll) ctx s))) [201; 400; 500] /\
  In (fiber.StatusCode (response (serve env (putEmployee coll) ctx s))) [200; 400; 500] /\
  In (fiber.StatusCode (response (serve env (deleteEmployee coll) ctx s)))
     [200; 400; 404; 500].
Proof.
  split; [|split; [|split]].
  - unfold serve, getEmployee. cbn -[fiber.Marshal].
    destruct (env _ (mongo.Find coll [("", bson.Null)]) s) as [[cursor | e] s1];
      cbn -[fiber.Marshal]; auto.
    destruct (env _ (mongo.All cursor []) s1) as [[es [e|]] s2]; cbn -[fiber.Marshal];
      destruct (fiber.Marshal (fiber.AEmployees es)); simpl; auto.
  - unfold serve, postEmployee.
    destruct (fiber.BodyParser ctx new_Employee) as [employee [e|]];
      cbn -[fiber.Marshal]; auto.
    destruct (env _ (mongo.InsertOne coll (set_ID employee "")) s) as [[r | e] s1];
      cbn -[fiber.Marshal]; auto.
    destruct (env _ (mongo.FindOne coll [("_id", mongo.InsertedID r)]) s1) as [sr s2];
      cbn -[fiber.Marshal].
    destruct (env _ (mongo.Decode sr new_Employee) s2) as [[created derr] s3];
      cbn -[fiber.Marshal].
    destruct (fiber.Marshal (fiber.AEmployee created)); simpl; auto.
  - unfold serve, putEmployee.
    destruct (primitive.ObjectIDFromHex (fiber.Params ctx "id")) as [id | e];
      cbn -[fiber.Marshal]; auto.
    destruct (fiber.BodyParser ctx new_Employee) as [employee [e|]];
      cbn -[fiber.Marshal]; auto.
    destruct (env _ (mongo.FindOneAndUpdate coll (put_query id) (put_update employee)) s)
      as [sr s1]; cbn -[fiber.Marshal].
    destruct (mongo.Err sr) as [e|]; cbn -[fiber.Marshal].
    + destruct (error_eqb e ErrNoDocuments); simpl; auto.
    + destruct (fiber.Marshal (fiber.AEmployee (set_ID employee (fiber.Params ctx "id"))));
        simpl; auto.
  - unfold serve, deleteEmployee.
    destruct (primitive.ObjectIDFromHex (fiber.Params ctx "id")) as [id | e]; simpl; auto.
    destruct (env _ (mongo.DeleteOne coll [("_id", bson.ObjectID id)]) s)
      as [[r | e] s1]; simpl; auto.
    destruct (mongo.DeletedCount r <? 1); simpl; auto.
Qed.

(** X8: On a malformed identifier the two handlers do not answer alike: PUT
    makes the single write [SendStatus(400)], DELETE sets the status and
    sends the text of the parse error. *)
Theorem malformed_id_writes (ctx : fiber.Ctx) (s : S) (err : error) :
  primitive.ObjectIDFromHex (fiber.Params ctx "id") = inr err ->
  writes (serve env (putEmployee coll) ctx s) = [fiber.SendStatus 400] /\
  writes (serve env (deleteEmployee coll) ctx s)
    = [fiber.Status 400; fiber.SendString (Error err)].
Proof.
  intro Hid. unfold serve, putEmployee, deleteEmployee. rewrite Hid.
  split; reflexivity.
Qed.

End AnyDriverMore.

(* ===================================================================== *)
(** ** More on the handlers over the reference store                      *)
(* ===================================================================== *)

Module KeyedFacts.
Import MongoModel Keyed.

Lemma next_fault_frame (s s1 : Store) (f : option error) :
  next_fault s = (f, s1) ->
  docs s1 = docs s /\ generator s1 = generator s /\ faults s1 = tl (faults s).
Proof.
  unfold next_fault. destruct (faults s) as [|f' fs] eqn:Hf; intro H;
    injection H; intros; subst; simpl; auto.
Qed.

Lemma has_id_oid_of (id : primitive.ObjectID) (d : bson.D) :
  has_id (bson.ObjectID id) d = true <-> oid_of d = Some id.
Proof.
  unfold has_id, oid_of. destruct (bson.lookup "_id" d) as [v|].
  - split; intro H.
    + apply StoreFacts.Value_eqb_ObjectID in H. subst v. reflexivity.
    + destruct v; try discriminate. injection H as ->. simpl. apply oid_eqb_refl.
  - split; intro H; discriminate.
Qed.

Lemma existsb_has_id_In (id : primitive.ObjectID) (ds : list bson.D) :
  existsb (has_id (bson.ObjectID id)) ds = false -> ~ In (Some id) (map oid_of ds).
Proof.
  intros Hex Hin. apply in_map_iff in Hin. destruct Hin as (d & Hd & Hin).
  apply has_id_oid_of in Hd.
  assert (existsb (has_id (bson.ObjectID id)) ds = true) as Ht.
  { apply existsb_exists. exists d. auto. }
  congruence.
Qed.

Lemma find_first_None (filter : bson.D) (ds : list bson.D) :
  find_first filter ds = None <-> forallb (fun x => negb (matches filter x)) ds = true.
Proof.
  induction ds as [|d ds IH]; simpl.
  - split; reflexivity.
  - destruct (matches filter d); simpl.
    + split; discriminate.
    + destruct (find_first filter ds) as [[[pre x] post]|].
      * split; [discriminate|]. intro H. apply IH in H. discriminate.
      * split; [|reflexivity]. intros _. apply IH. reflexivity.
Qed.

(** Among uniquely keyed documents, what is left when the first document of
    an identifier is taken out holds no document of that identifier. *)
Lemma unique_ids_find_first (id : primitive.ObjectID) (ds pre post : list bson.D)
  (d : bson.D) :
  unique_ids ds ->
  find_first (put_query id) ds = Some (pre, d, post) ->
  find_first (put_query id) (pre ++ post) = None.
Proof.
  intros [_ Hnodup] Hfind.
  destruct (StoreFacts.find_first_Some _ _ _ _ _ Hfind) as (-> & Hd & Hpre).
  rewrite StoreFacts.matches_put_query in Hd. apply has_id_oid_of in Hd.
  rewrite map_app in Hnodup. simpl in Hnodup. rewrite Hd in Hnodup.
  apply NoDup_remove_2 in Hnodup.
  apply find_first_None. rewrite forallb_forall. intros x Hx.
  destruct (matches (put_query id) x) eqn:Hm; [|reflexivity].
  exfalso. apply Hnodup. rewrite <- map_app. apply in_map_iff. exists x.
  rewrite StoreFacts.matches_put_query in Hm. apply has_id_oid_of in Hm. auto.
Qed.

Lemma unique_ids_remove (pre post : list bson.D) (d : bson.D) :
  unique_ids (pre ++ d :: post) -> unique_ids (pre ++ post).
Proof.
  intros [Hall Hnodup]. split.
  - apply Forall_app in Hall. destruct Hall as [Hpre Hpost].
    apply Forall_app. split; [assumption|]. inversion Hpost; assumption.
  - rewrite map_app in *. simpl in Hnodup. eapply NoDup_remove_1. exact Hnodup.
Qed.

Lemma unique_ids_replace (pre post : list bson.D) (d d' : bson.D) :
  oid_of d' = oid_of d ->
  unique_ids (pre ++ d :: post) -> unique_ids (pre ++ d' :: post).
Proof.
  intros Heq [Hall Hnodup]. split.
  - apply Forall_app in Hall. destruct Hall as [Hpre Hpost].
    apply Forall_app. split; [assumption|].
    inversion Hpost; subst. constructor; [congruence | assumption].
  - rewrite map_app in *. simpl in *. rewrite Heq. exact Hnodup.
Qed.

Lemma unique_ids_append (id : primitive.ObjectID) (ds : list bson.D) (d : bson.D) :
  oid_of d = Some id ->
  existsb (has_id (bson.ObjectID id)) ds = false ->
  unique_ids ds -> unique_ids (ds ++ [d]).
Proof.
  intros Hd Hfresh [Hall Hnodup]. split.
  - apply Forall_app. split; [assumption|]. constructor; [congruence | constructor].
  - rewrite map_app. simpl. rewrite Hd.
    apply NoDup_rev in Hnodup. rewrite <- (rev_involutive (map oid_of ds ++ [Some id])).
    apply NoDup_rev. rewrite rev_app_distr. simpl. constructor; [|assumption].
    rewrite <- in_rev. apply existsb_has_id_In. assumption.
Qed.

(** The store after [insert] of a body without identifier. *)
Lemma insert_docs (e : Employee) (s : Store) :
  let s' := snd (insert (set_ID e "") s) in
  let id := NewObjectID (generator s) in
  docs s' = docs s \/
  (existsb (has_id (bson.ObjectID id)) (docs s) = false /\
   docs s' = docs s ++ [created_doc id e]).
Proof.
  unfold insert. cbn -[NewObjectID existsb].
  destruct (existsb (has_id (bson.ObjectID (NewObjectID (generator s)))) (docs s)) eqn:Hex.
  - left. reflexivity.
  - right. split; reflexivity.
Qed.

(** The store after [find_one_and_update] with the update of the PUT
    handler. *)
Lemma find_one_and_update_docs (id : primitive.ObjectID) (e : Employee) (s : Store) :
  let s' := snd (find_one_and_update (put_query id) (put_update e) s) in
  docs s' = docs s \/
  exists pre d d' post,
    docs s = pre ++ d :: post /\ docs s' = pre ++ d' :: post /\ oid_of d' = oid_of d.
Proof.
  unfold find_one_and_update.
  destruct (find_first (put_query id) (docs s)) as [[[pre d] post]|] eqn:Hfind.
  - destruct (StoreFacts.put_update_frame e d) as (d' & Happly & _ & _ & _ & Hframe).
    rewrite Happly. right. exists pre, d, d', post.
    destruct (StoreFacts.find_first_Some _ _ _ _ _ Hfind) as (Hdocs & _ & _).
    split; [exact Hdocs|]. split; [reflexivity|].
    unfold oid_of. rewrite Hframe by discriminate. reflexivity.
  - left. reflexivity.
Qed.

Lemma delete_one_docs (filter : bson.D) (s : Store) :
  let s' := snd (delete_one filter s) in
  docs s' = docs s \/
  exists pre d post, docs s = pre ++ d :: post /\ docs s' = pre ++ post.
Proof.
  unfold delete_one.
  destruct (find_first filter (docs s)) as [[[pre d] post]|] eqn:Hfind.
  - right. exists pre, d, post.
    destruct (StoreFacts.find_first_Some _ _ _ _ _ Hfind) as (Hdocs & _ & _).
    split; [exact Hdocs | reflexivity].
  - left. reflexivity.
Qed.

Lemma decode_all_app (a b : list bson.D) (ea eb : list Employee) :
  decode_all a = inl ea -> decode_all b = inl eb -> decode_all (a ++ b) = inl (ea ++ eb).
Proof.
  revert ea. induction a as [|d a IH]; intros ea Ha Hb; simpl in *.
  - injection Ha as <-. exact Hb.
  - destruct (Unmarshal d new_Employee) as [e [err|]]; [discriminate|].
    destruct (decode_all a) as [es|err]; [|discriminate].
    injection Ha as <-. rewrite (IH es eq_refl Hb). reflexivity.
Qed.

End KeyedFacts.

Section OnTheStoreMore.
Import MongoModel Keyed.

Variable coll : mongo.Collection.

(** How each handler can change the collection, whatever the request and
    the faults. *)
Lemma getEmployee_docs (ctx : fiber.Ctx) (s : Store) :
  docs (store (serve env (getEmployee coll) ctx s)) = docs s.
Proof.
  rewrite serve_store. unfold getEmployee. cbn -[next_fault decode_all fiber.Marshal].
  destruct (next_fault s) as [[e|] s1] eqn:Hnf;
    destruct (KeyedFacts.next_fault_frame _ _ _ Hnf) as (Hd & _ & _).
  - exact Hd.
  - cbn -[decode_all fiber.Marshal].
    destruct (decode_all (filter (matches [("", bson.Null)]) (docs s1)));
      cbn -[fiber.Marshal]; exact Hd.
Qed.

Lemma postEmployee_docs (ctx : fiber.Ctx) (s : Store) :
  let s' := store (serve env (postEmployee coll) ctx s) in
  let e := fst (fiber.BodyParser ctx new_Employee) in
  let id := NewObjectID (generator s) in
  docs s' = docs s \/
  (existsb (has_id (bson.ObjectID id)) (docs s) = false /\
   docs s' = docs s ++ [created_doc id e]).
Proof.
  rewrite serve_store. unfold postEmployee.
  destruct (fiber.BodyParser ctx new_Employee) as [employee [perr|]]; cbn [fst].
  - left. reflexivity.
  - cbn -[next_fault insert find_first Unmarshal NewObjectID existsb].
    destruct (next_fault s) as [[e|] s1] eqn:Hnf;
      destruct (KeyedFacts.next_fault_frame _ _ _ Hnf) as (Hd & Hc & _).
    + left. exact Hd.
    + pose proof (KeyedFacts.insert_docs employee s1) as Hins. cbv zeta in Hins.
      rewrite Hd, Hc in Hins.
      destruct (insert (set_ID employee "") s1) as [[r|e] s2];
        cbn -[next_fault find_first Unmarshal NewObjectID existsb] in *.
      * destruct (next_fault s2) as [[e|] s3] eqn:Hnf2;
          destruct (KeyedFacts.next_fault_frame _ _ _ Hnf2) as (Hd2 & _ & _).
        -- cbn -[NewObjectID existsb]. rewrite Hd2. exact Hins.
        -- destruct (find_first [("_id", mongo.InsertedID r)] (docs s3))
             as [[[pre d] post]|];
             cbn -[Unmarshal NewObjectID existsb].
           ++ destruct (Unmarshal d new_Employee) as [c derr];
                cbn -[NewObjectID existsb]. rewrite Hd2. exact Hins.
           ++ rewrite Hd2. exact Hins.
      * exact Hins.
Qed.

Lemma putEmployee_docs (ctx : fiber.Ctx) (s : Store) :
  let s' := store (serve env (putEmployee coll) ctx s) in
  docs s' = docs s \/
  exists pre d d' post,
    docs s = pre ++ d :: post /\ docs s' = pre ++ d' :: post /\ oid_of d' = oid_of d.
Proof.
  rewrite serve_store. unfold putEmployee.
  destruct (primitive.ObjectIDFromHex (fiber.Params ctx "id")) as [id | e];
    [|left; reflexivity].
  destruct (fiber.BodyParser ctx new_Employee) as [employee [perr|]];
    [left; reflexivity|].
  cbn -[next_fault find_one_and_update put_query put_update].
  destruct (next_fault s) as [[e|] s1] eqn:Hnf;
    destruct (KeyedFacts.next_fault_frame _ _ _ Hnf) as (Hd & _ & _).
  - left. cbn. destruct (error_eqb e ErrNoDocuments); exact Hd.
  - pose proof (KeyedFacts.find_one_and_update_docs id employee s1) as Hupd.
    cbv zeta in Hupd. rewrite Hd in Hupd.
    destruct (find_one_and_update (put_query id) (put_update employee) s1) as [sr s2].
    cbn [snd] in Hupd.
    assert (Hs : store (snd (run env
                     match mongo.Err sr with
                     | Some err =>
                         if error_eqb err ErrNoDocuments then c.SendStatus 400
                         else c.SendStatus 500
                     | None =>
                         (c.Status 200 ;;
                          c.JSON (fiber.AEmployee
                                    (set_ID employee (fiber.Params ctx "id"))))%prog
                     end
                     (mkWorld fiber.Response0 []
                        ([] ++ [log (mongo.FindOneAndUpdate coll (put_query id)
                                      (put_update employee))]) s2))) = s2).
    { destruct (mongo.Err sr) as [e|]; [|reflexivity].
      destruct (error_eqb e ErrNoDocuments); reflexivity. }
    cbn -[put_query put_update] in Hs |- *. rewrite Hs. exact Hupd.
Qed.

Lemma deleteEmployee_docs (ctx : fiber.Ctx) (s : Store) :
  let s' := store (serve env (deleteEmployee coll) ctx s) in
  docs s' = docs s \/
  exists pre d post, docs s = pre ++ d :: post /\ docs s' = pre ++ post.
Proof.
  rewrite serve_store. unfold deleteEmployee.
  destruct (primitive.ObjectIDFromHex (fiber.Params ctx "id")) as [id | e];
    [|left; reflexivity].
  cbn -[next_fault delete_one].
  destruct (next_fault s) as [[e|] s1] eqn:Hnf;
    destruct (KeyedFacts.next_fault_frame _ _ _ Hnf) as (Hd & _ & _).
  - left. exact Hd.
  - pose proof (KeyedFacts.delete_one_docs [("_id", bson.ObjectID id)] s1) as Hdel.
    cbv zeta in Hdel. rewrite Hd in Hdel.
    destruct (delete_one [("_id", bson.ObjectID id)] s1) as [r s2].
    cbn [snd] in Hdel. cbn.
    destruct (mongo.DeletedCount r <? 1); exact Hdel.
Qed.

(** X9: The handlers keep the collection uniquely keyed: if every stored
    document has an ObjectID and no two have the same, this is still so
    after any request to any of the four handlers, whatever the body, the
    path parameter and the faults. *)
Theorem handlers_keep_ids_unique (ctx : fiber.Ctx) (s : Store) :
  unique_ids (docs s) ->
  unique_ids (docs (store (serve env (getEmployee coll) ctx s))) /\
  unique_ids (docs (store (serve env (postEmployee coll) ctx s))) /\
  unique_ids (docs (store (serve env (putEmployee coll) ctx s))) /\
  unique_ids (docs (store (serve env (deleteEmployee coll) ctx s))).
Proof.
  intro Hinv. split; [|split; [|split]].
  - rewrite getEmployee_docs. exact Hinv.
  - destruct (postEmployee_docs ctx s) as [-> | [Hfresh ->]]; [exact Hinv|].
    eapply KeyedFacts.unique_ids_append; [reflexivity | exact Hfresh | exact Hinv].
  - destruct (putEmployee_docs ctx s) as [-> | (pre & d & d' & post & Hs & -> & Hid)];
      [exact Hinv|].
    rewrite Hs in Hinv. eapply KeyedFacts.unique_ids_replace; eassumption.
  - destruct (deleteEmployee_docs ctx s) as [-> | (pre & d & post & Hs & ->)];
      [exact Hinv|].
    rewrite Hs in Hinv. eapply KeyedFacts.unique_ids_remove; eassumption.
Qed.

(** X10: No handler changes more than one document: GET and PUT keep the number
    of documents (PUT never inserts), POST adds at most one, DELETE removes
    at most one. *)
Theorem handlers_change_one_document_at_most (ctx : fiber.Ctx) (s : Store) :
  let n := List.length (docs s) in
  List.length (docs (store (serve env (getEmployee coll) ctx s))) = n /\
  (let m := List.length (docs (store (serve env (postEmployee coll) ctx s))) in
   m = n \/ m = Datatypes.S n) /\
  List.length (docs (store (serve env (putEmployee coll) ctx s))) = n /\
  (let m := List.length (docs (store (serve env (deleteEmployee coll) ctx s))) in
   m = n \/ Datatypes.S m = n).
Proof.
  cbv zeta. split; [|split; [|split]].
  - rewrite getEmployee_docs. reflexivity.
  - destruct (postEmployee_docs ctx s) as [-> | [_ ->]]; [left; reflexivity|].
    right. rewrite length_app. simpl. lia.
  - destruct (putEmployee_docs ctx s) as [-> | (pre & d & d' & post & -> & -> & _)];
      [reflexivity|].
    rewrite !length_app. reflexivity.
  - destruct (deleteEmployee_docs ctx s) as [-> | (pre & d & post & -> & ->)];
      [left; reflexivity|].
    right. rewrite !length_app. simpl. lia.
Qed.

End OnTheStoreMore.

Section Composition.
Import MongoModel Keyed.

Variable coll : mongo.Collection.

(** The world after a DELETE request with a well-formed identifier whose
    round trip meets no fault. *)
Lemma deleteEmployee_run (ctx : fiber.Ctx) (id : primitive.ObjectID) (s s1 : Store) :
  primitive.ObjectIDFromHex (fiber.Params ctx "id") = inl id ->
  next_fault s = (None, s1) ->
  serve env (deleteEmployee coll) ctx s =
  match find_first [("_id", bson.ObjectID id)] (docs s) with
  | Some (pre, _, post) =>
      mkWorld (fiber.mkResponse 200 (fiber.JSONOf (fiber.AString "record deleted..."))
                 "application/json")
              [fiber.Status 200; fiber.JSON (fiber.AString "record deleted...")]
              [log (mongo.DeleteOne coll [("_id", bson.ObjectID id)])]
              (mkStore (pre ++ post) (faults s1) (generator s1))
  | None =>
      mkWorld (fiber.mkResponse 404 (fiber.StatusMessage 404) "")
              [fiber.SendStatus 404]
              [log (mongo.DeleteOne coll [("_id", bson.ObjectID id)])]
              s1
  end.
Proof.
  intros Hid Hnf. destruct (KeyedFacts.next_fault_frame _ _ _ Hnf) as (Hd & _ & _).
  unfold serve, deleteEmployee. rewrite Hid.
  cbn -[next_fault find_first]. rewrite Hnf. unfold delete_one. rewrite Hd.
  destruct (find_first [("_id", bson.ObjectID id)] (docs s)) as [[[pre d] post]|];
    reflexivity.
Qed.

(** X11: A DELETE request over a reachable store removes the first document of
    that identifier, and only it, and answers 200; when no document has the
    identifier it answers 404 and the collection is what it was. *)
Theorem deleteEmployee_removes_first_match
  (ctx : fiber.Ctx) (id : primitive.ObjectID) (s : Store) :
  primitive.ObjectIDFromHex (fiber.Params ctx "id") = inl id ->
  fst (next_fault s) = None ->
  let w := serve env (deleteEmployee coll) ctx s in
  match find_first [("_id", bson.ObjectID id)] (docs s) with
  | Some (pre, d, post) =>
      fiber.StatusCode (response w) = 200 /\
      docs s = pre ++ d :: post /\ docs (store w) = pre ++ post
  | None =>
      fiber.StatusCode (response w) = 404 /\ docs (store w) = docs s
  end.
Proof.
  intros Hid Hfault. destruct (next_fault s) as [f s1] eqn:Hnf.
  cbn [fst] in Hfault. subst f.
  destruct (KeyedFacts.next_fault_frame _ _ _ Hnf) as (Hd & _ & _).
  cbv zeta. rewrite (deleteEmployee_run ctx id s s1 Hid Hnf).
  destruct (find_first [("_id", bson.ObjectID id)] (docs s)) as [[[pre d] post]|] eqn:Hfind.
  - destruct (StoreFacts.find_first_Some _ _ _ _ _ Hfind) as (Hdocs & _ & _).
    split; [reflexivity|]. split; [exact Hdocs | reflexivity].
  - split; [reflexivity | exact Hd].
Qed.

(** X12: In a uniquely keyed collection a deleted identifier is gone: the first
    DELETE of a stored identifier answers 200, the same request again
    answers 404 and changes nothing. *)
Theorem deleteEmployee_twice_404
  (ctx : fiber.Ctx) (id : primitive.ObjectID) (s : Store)
  (pre post : list bson.D) (d : bson.D) :
  primitive.ObjectIDFromHex (fiber.Params ctx "id") = inl id ->
  no_fault 2 s = true ->
  unique_ids (docs s) ->
  find_first [("_id", bson.ObjectID id)] (docs s) = Some (pre, d, post) ->
  let w1 := serve env (deleteEmployee coll) ctx s in
  let w2 := serve env (deleteEmployee coll) ctx (store w1) in
  fiber.StatusCode (response w1) = 200 /\
  docs (store w1) = pre ++ post /\
  fiber.StatusCode (response w2) = 404 /\
  docs (store w2) = pre ++ post.
Proof.
  intros Hid Hok Hinv Hfind.
  destruct (StoreFacts.next_fault_healthy _ _ Hok) as (s1 & Hnf1 & Hd1 & Hc1 & Hf1).
  pose proof (StoreFacts.no_fault_tl _ _ s1 Hok Hf1) as Hok1.
  cbv zeta. rewrite (deleteEmployee_run ctx id s s1 Hid Hnf1), Hfind. cbn [response store].
  assert (Hok2 : no_fault 1 (mkStore (pre ++ post) (faults s1) (generator s1)) = true)
    by exact Hok1.
  destruct (StoreFacts.next_fault_healthy _ _ Hok2) as (s2 & Hnf2 & Hd2 & _ & _).
  rewrite (deleteEmployee_run ctx id _ s2 Hid Hnf2). cbn [docs].
  change [("_id", bson.ObjectID id)] with (put_query id) in Hfind |- *.
  rewrite (KeyedFacts.unique_ids_find_first id _ _ _ _ Hinv Hfind).
  repeat (split; [reflexivity|]). exact Hd2.
Qed.

End Composition.

Section RoundTrips.
Import MongoModel Keyed.

Variable coll : mongo.Collection.

Lemma no_fault_weaken (n : nat) (s : Store) :
  no_fault (Datatypes.S n) s = true -> no_fault n s = true.
Proof.
  unfold no_fault. generalize (faults s). induction n as [|n IH]; intros fs H.
  - reflexivity.
  - destruct fs as [|[e|] fs]; simpl in *; try reflexivity; try discriminate.
    apply IH. exact H.
Qed.

(** The store a successful POST leaves meets no fault in its next round
    trip when the schedule was clear for three. *)
Lemma no_fault_after_create (s : Store) (ds : list bson.D) (g : Generator) :
  no_fault 3 s = true -> no_fault 1 (mkStore ds (tl (tl (faults s))) g) = true.
Proof.
  unfold no_fault. simpl. destruct (faults s) as [|[e|] [|[e'|] [|[e''|] fs]]];
    simpl; intro H; try reflexivity; discriminate.
Qed.

Lemma created_doc_has_id (id : primitive.ObjectID) (e : Employee) :
  has_id (bson.ObjectID id) (created_doc id e) = true.
Proof.
  unfold has_id. simpl. apply oid_eqb_refl.
Qed.

Lemma Marshal_Employees_last (es : list Employee) (e : Employee) :
  fiber.Marshal_Employees (es ++ [e]) = None -> fiber.Marshal_Employee e = None.
Proof.
  induction es as [|x es IH]; simpl.
  - destruct (fiber.Marshal_Employee e); [discriminate | reflexivity].
  - destruct (fiber.Marshal_Employee x); [discriminate | exact IH].
Qed.

(** X13: Create, then list: over a reachable store, when the records a GET
    would have listed before and the new record all encode, the POST answers
    201 with the new record and the GET that follows answers 200 with the
    records listed before followed by the new one. *)
Theorem create_then_list_appends_record
  (ctx ctx' : fiber.Ctx) (employee : Employee) (s : Store) (es : list Employee) :
  fiber.BodyParser ctx new_Employee = (employee, None) ->
  no_fault 3 s = true ->
  existsb (has_id (bson.ObjectID (NewObjectID (generator s)))) (docs s) = false ->
  decode_all (filter (matches [("", bson.Null)]) (docs s)) = inl es ->
  fiber.Marshal (fiber.AEmployees (es ++ [created (NewObjectID (generator s)) employee]))
    = None ->
  let w1 := serve env (postEmployee coll) ctx s in
  let w2 := serve env (getEmployee coll) ctx' (store w1) in
  response w1 =
    fiber.mkResponse 201
      (fiber.JSONOf (fiber.AEmployee (created (NewObjectID (generator s)) employee)))
      "application/json" /\
  response w2 =
    fiber.mkResponse 200
      (fiber.JSONOf (fiber.AEmployees (es ++ [created (NewObjectID (generator s)) employee])))
      "application/json".
Proof.
  intros Hbody Hok Hfresh Hes Hjson. cbv zeta.
  pose proof (no_fault_weaken _ _ Hok) as Hok2.
  rewrite (postEmployee_store coll ctx employee s Hbody Hok2 Hfresh).
  split.
  - unfold serve. rewrite (postEmployee_run coll ctx employee s Hbody Hok2 Hfresh).
    cbn [fiber.Marshal] in Hjson |- *.
    rewrite (Marshal_Employees_last _ _ Hjson). reflexivity.
  - pose proof (no_fault_after_create s
                  (docs s ++ [created_doc (NewObjectID (generator s)) employee])
                  (increment (generator s)) Hok) as Hok3.
    destruct (StoreFacts.next_fault_healthy _ _ Hok3) as (s3 & Hnf3 & Hd3 & _ & _).
    unfold serve, getEmployee.
    cbn -[next_fault decode_all filter matches NewObjectID increment created_doc created
          fiber.Marshal].
    rewrite Hnf3. rewrite Hd3.
    cbn -[decode_all filter matches NewObjectID increment created_doc created fiber.Marshal].
    rewrite filter_app.
    assert (Hlast : filter (matches [("", bson.Null)])
                      [created_doc (NewObjectID (generator s)) employee]
                    = [created_doc (NewObjectID (generator s)) employee]) by reflexivity.
    rewrite Hlast.
    rewrite (KeyedFacts.decode_all_app _ _ es
               [created (NewObjectID (generator s)) employee] Hes); [|reflexivity].
    cbn -[NewObjectID created fiber.Marshal]. rewrite Hjson. reflexivity.
Qed.

(** X14: Create, then update under the returned identifier: the PUT finds
    the document and leaves in its place the document a POST of the new body
    would have stored, the rest of the collection being as before the POST.
    When the new body encodes, the PUT answers 200 with the record a POST of
    the new body would have answered with; when its salary or age is NaN or
    infinite, the document is replaced all the same and the answer is 500
    with the encoder's error text. *)
Theorem create_then_update_by_returned_id
  (ctx ctx2 : fiber.Ctx) (employee employee2 : Employee) (s : Store) :
  fiber.BodyParser ctx new_Employee = (employee, None) ->
  no_fault 3 s = true ->
  existsb (has_id (bson.ObjectID (NewObjectID (generator s)))) (docs s) = false ->
  fiber.Params ctx2 "id" = primitive.Hex (NewObjectID (generator s)) ->
  fiber.BodyParser ctx2 new_Employee = (employee2, None) ->
  let w1 := serve env (postEmployee coll) ctx s in
  let w2 := serve env (putEmployee coll) ctx2 (store w1) in
  response w2 =
    match fiber.Marshal (fiber.AEmployee employee2) with
    | None =>
        fiber.mkResponse 200
          (fiber.JSONOf (fiber.AEmployee (created (NewObjectID (generator s)) employee2)))
          "application/json"
    | Some jerr => fiber.mkResponse 500 (fiber.Text (Error jerr)) "text/plain; charset=utf-8"
    end /\
  docs (store w2) = docs s ++ [created_doc (NewObjectID (generator s)) employee2].
Proof.
  intros Hbody Hok Hfresh Hparam Hbody2. cbv zeta.
  rewrite (postEmployee_store coll ctx employee s Hbody (no_fault_weaken _ _ Hok) Hfresh).
  pose proof (no_fault_after_create s
                (docs s ++ [created_doc (NewObjectID (generator s)) employee])
                (increment (generator s)) Hok) as Hok3.
  destruct (StoreFacts.next_fault_healthy _ _ Hok3) as (s3 & Hnf3 & Hd3 & _ & _).
  unfold serve, putEmployee. rewrite Hparam.
  rewrite (Normal.ObjectIDFromHex_Hex _ (StoreFacts.NewObjectID_length (generator s))).
  rewrite Hbody2.
  cbn -[next_fault find_first apply_update put_query put_update NewObjectID increment
        created_doc created primitive.Hex fiber.Marshal].
  rewrite Hnf3. unfold find_one_and_update. rewrite Hd3. cbn [docs].
  rewrite (StoreFacts.find_first_fresh _ _ _ Hfresh (created_doc_has_id _ _)).
  cbn -[NewObjectID increment primitive.Hex fiber.Marshal].
  change (fiber.Marshal (fiber.AEmployee
            (set_ID employee2 (primitive.Hex (NewObjectID (generator s))))))
    with (fiber.Marshal (fiber.AEmployee employee2)).
  destruct (fiber.Marshal (fiber.AEmployee employee2)); split; reflexivity.
Qed.

(** X15: Create, then delete under the returned identifier: the DELETE answers
    200 and the collection is what it was before the POST. *)
Theorem create_then_delete_by_returned_id
  (ctx ctx2 : fiber.Ctx) (employee : Employee) (s : Store) :
  fiber.BodyParser ctx new_Employee = (employee, None) ->
  no_fault 3 s = true ->
  existsb (has_id (bson.ObjectID (NewObjectID (generator s)))) (docs s) = false ->
  fiber.Params ctx2 "id" = primitive.Hex (NewObjectID (generator s)) ->
  let w1 := serve env (postEmployee coll) ctx s in
  let w2 := serve env (deleteEmployee coll) ctx2 (store w1) in
  fiber.StatusCode (response w2) = 200 /\ docs (store w2) = docs s.
Proof.
  intros Hbody Hok Hfresh Hparam. cbv zeta.
  rewrite (postEmployee_store coll ctx employee s Hbody (no_fault_weaken _ _ Hok) Hfresh).
  pose proof (no_fault_after_create s
                (docs s ++ [created_doc (NewObjectID (generator s)) employee])
                (increment (generator s)) Hok) as Hok3.
  destruct (StoreFacts.next_fault_healthy _ _ Hok3) as (s3 & Hnf3 & _ & _ & _).
  assert (Hid : primitive.ObjectIDFromHex (fiber.Params ctx2 "id")
                = inl (NewObjectID (generator s))).
  { rewrite Hparam.
    apply (Normal.ObjectIDFromHex_Hex _ (StoreFacts.NewObjectID_length (generator s))). }
  rewrite (deleteEmployee_run coll ctx2 _ _ s3 Hid Hnf3). cbn [docs].
  change [("_id", bson.ObjectID (NewObjectID (generator s)))]
    with (put_query (NewObjectID (generator s))).
  rewrite (StoreFacts.find_first_fresh _ _ _ Hfresh (created_doc_has_id _ _)).
  cbn [response store docs fiber.StatusCode]. rewrite app_nil_r. split; reflexivity.
Qed.

End RoundTrips.

(* ===================================================================== *)
(** ** More on startup                                                    *)
(* ===================================================================== *)

Section StartupMore.

Context {S : Type} (env : LibEnv S).

(** X16: [Connect] reports what [client.Connect] reports and nothing else: the
    error of [mongo.NewClient] is overwritten.  It makes one connection
    attempt, with a 30 second deadline, on the client built for [mongoURI],
    prints nothing, and stores the client and its "fiber-hrms" database in
    [mg] exactly when the attempt reported no error. *)
Theorem Connect_reports_client_Connect
  (w : Process S) (s1 s2 : S) (client : mongo.Client) (e0 r : option error) :
  env _ (NewClient mongoURI) (world w) = ((Some client, e0), s1) ->
  env _ (ClientConnect client 30) s1 = (r, s2) ->
  exec env Connect w =
  (inl r,
   mkProcess
     (match r with
      | None => mkMongoInstance (Some client) (Some (mongo.mkDatabase client dbName))
      | Some _ => mg w
      end)
     (trace w ++ [DidNewClient mongoURI; DidConnect client 30])
     (stderr w) s2).
Proof.
  intros Hnew Hconn. unfold Connect.
  cbn -[mongoURI dbName]. rewrite Hnew. cbn -[mongoURI dbName]. rewrite Hconn.
  rewrite <- app_assoc. destruct r; reflexivity.
Qed.

(** X17: [main] never returns to its caller: every run ends in [log.Fatal],
    in a panic, or in [app.Listen] serving for good.  And [app.Listen] is
    called only once the connection is made: whenever it was called, one
    connection attempt had been made and [mg] holds the client and its
    database; the run then serves, or, [app.Listen] having returned, exits
    with status 1. *)
Theorem main_never_returns (s : S) :
  let r := exec env main (Process0 s) in
  (exists h, fst r = inr h) /\
  (server_started (snd r) = true ->
   (fst r = inr Serving \/ fst r = inr (Exit 1)) /\
   connect_attempts (snd r) = 1%nat /\
   exists cl, mg (snd r) = mkMongoInstance (Some cl) (Some (mongo.mkDatabase cl dbName))).
Proof.
  unfold main, Connect, app_Listen. cbn -[mongoURI dbName String.append Error].
  destruct (env _ (NewClient mongoURI) s) as [[[cl|] e0] s1];
    cbn -[mongoURI dbName String.append Error].
  - destruct (env _ (ClientConnect cl 30) s1) as [[err|] s2];
      cbn -[mongoURI dbName String.append Error].
    + split; [eexists; reflexivity | discriminate].
    + destruct (env _ (Listen ":3000") s2) as [[|lerr] s3];
        cbn -[mongoURI dbName String.append Error].
      * split; [eexists; reflexivity|]. intros _.
        split; [left; reflexivity|]. split; [reflexivity|]. exists cl. reflexivity.
      * split; [eexists; reflexivity|]. intros _.
        split; [right; reflexivity|]. split; [reflexivity|]. exists cl. reflexivity.
  - split; [eexists; reflexivity | discriminate].
Qed.

(** X18: When the connection is made, [main] registers the four routes, in the
    order GET, POST, PUT, DELETE, before it listens on ":3000"; when
    [app.Listen] returns, its result is printed and the process exits with
    status 1. *)
Theorem main_connected_registers_then_listens
  (s s1 s2 s3 : S) (client : mongo.Client) (e0 lerr : option error) :
  env _ (NewClient mongoURI) s = ((Some client, e0), s1) ->
  env _ (ClientConnect client 30) s1 = (None, s2) ->
  env _ (Listen ":3000") s2 = (Returns lerr, s3) ->
  let r := exec env main (Process0 s) in
  fst r = inr (Exit 1) /\
  trace (snd r) =
    [DidNewClient mongoURI; DidConnect client 30;
     DidRoute "GET" "/employee"; DidRoute "POST" "/employee";
     DidRoute "PUT" "/employee/:id"; DidRoute "DELETE" "/employee/:id";
     DidListen ":3000"; DidFatal (Sprint_error lerr)] /\
  stderr (snd r) = [Sprint_error lerr] /\
  mg (snd r) = mkMongoInstance (Some client) (Some (mongo.mkDatabase client dbName)).
Proof.
  intros Hnew Hconn Hlisten. unfold main, Connect, app_Listen.
  cbn -[mongoURI dbName Sprint_error]. rewrite Hnew.
  cbn -[mongoURI dbName Sprint_error]. rewrite Hconn.
  cbn -[mongoURI dbName Sprint_error]. rewrite Hlisten.
  cbn -[mongoURI dbName Sprint_error].
  split; [|split; [|split]]; reflexivity.
Qed.

(** While [app.Listen] serves, [main] goes no further: nothing is printed
    and the process does not exit. *)
Lemma main_connected_serves
  (s s1 s2 s3 : S) (client : mongo.Client) (e0 : option error) :
  env _ (NewClient mongoURI) s = ((Some client, e0), s1) ->
  env _ (ClientConnect client 30) s1 = (None, s2) ->
  env _ (Listen ":3000") s2 = (Serves, s3) ->
  let r := exec env main (Process0 s) in
  fst r = inr Serving /\ stderr (snd r) = [] /\ server_started (snd r) = true.
Proof.
  intros Hnew Hconn Hlisten. unfold main, Connect, app_Listen.
  cbn -[mongoURI dbName Sprint_error]. rewrite Hnew.
  cbn -[mongoURI dbName Sprint_error]. rewrite Hconn.
  cbn -[mongoURI dbName Sprint_error]. rewrite Hlisten.
  split; [|split]; reflexivity.
Qed.

End StartupMore.

Module MoreInstances.
Import Scenario.

Lemma with_ann_unique : Keyed.unique_ids (MongoModel.docs with_ann).
Proof.
  split.
  - constructor; [discriminate | constructor].
  - simpl. constructor; [simpl; tauto | constructor].
Qed.

(** A truncated body: 400 from POST and PUT, Ann's document untouched. *)
Lemma malformed_body_on_with_ann :
  let ctx := MongoModel.request hex0 (new_Employee, Some truncated) in
  let wc := serve MongoModel.env (postEmployee employees) ctx with_ann in
  let wu := serve MongoModel.env (putEmployee employees) ctx with_ann in
  (response wc = fiber.mkResponse 400 (fiber.Text "unexpected end of JSON input") "" /\
   store wc = with_ann) /\
  (response wu = fiber.mkResponse 400 (fiber.Text "unexpected end of JSON input") "" /\
   store wu = with_ann).
Proof.
  destruct (malformed_body_400_before_any_store_call MongoModel.env employees
              (MongoModel.request hex0 (new_Employee, Some truncated)) with_ann
              new_Employee truncated eq_refl)
    as [(_ & _ & Hc) (_ & _ & Hu & _)].
  split; (split; [reflexivity | assumption]).
Defined.

(** The server is unreachable when Bo is posted: 500 and no read. *)
Lemma postEmployee_on_unreachable :
  let w := serve MongoModel.env (postEmployee employees) (MongoModel.request "" (bo, None))
             unreachable in
  response w = fiber.mkResponse 500 (fiber.Text "connection reset by peer") "" /\
  List.length (calls w) = 1%nat /\
  MongoModel.docs (store w) = [ann_doc].
Proof.
  destruct (postEmployee_insert_failure_500 MongoModel.env employees
              (MongoModel.request "" (bo, None)) unreachable
              (MongoModel.mkStore [ann_doc] [] gen1) bo reset eq_refl eq_refl)
    as (Hresp & _ & Hcalls & Hstore).
  split; [exact Hresp|]. split; [rewrite Hcalls | rewrite Hstore]; reflexivity.
Defined.

(** Ann posted with and without an identifier of her own. *)
Lemma postEmployee_ann_with_or_without_id :
  serve MongoModel.env (postEmployee employees)
    (MongoModel.request "" (set_ID ann "", None)) with_ann
  = serve MongoModel.env (postEmployee employees)
      (MongoModel.request "" (ann, None)) with_ann.
Proof.
  apply (postEmployee_ignores_body_id MongoModel.env employees
           (MongoModel.request "" (set_ID ann "", None))
           (MongoModel.request "" (ann, None)) with_ann
           (set_ID ann "") "my-own-id" None eq_refl eq_refl).
Defined.

Lemma putEmployee_ann_with_or_without_id :
  serve MongoModel.env (putEmployee employees)
    (MongoModel.request hex0 (set_ID ann "", None)) with_ann
  = serve MongoModel.env (putEmployee employees)
      (MongoModel.request hex0 (ann, None)) with_ann.
Proof.
  apply (putEmployee_ignores_body_id MongoModel.env employees
           (MongoModel.request hex0 (set_ID ann "", None))
           (MongoModel.request hex0 (ann, None)) with_ann
           (set_ID ann "") "my-own-id" None eq_refl eq_refl eq_refl).
Defined.

(** Listing while the server is unreachable, and listing Ann. *)
Lemma getEmployee_on_unreachable :
  let w := serve MongoModel.env (getEmployee employees) (MongoModel.request "" (bo, None))
             unreachable in
  response w = fiber.mkResponse 500 (fiber.Text "connection reset by peer") "" /\
  List.length (calls w) = 1%nat.
Proof.
  destruct (getEmployee_Find_failure_500 MongoModel.env employees
              (MongoModel.request "" (bo, None)) unreachable
              (MongoModel.mkStore [ann_doc] [] gen1) reset eq_refl)
    as (Hresp & _ & Hcalls).
  split; [exact Hresp | rewrite Hcalls; reflexivity].
Defined.

Lemma getEmployee_on_with_ann :
  let w := serve MongoModel.env (getEmployee employees) (MongoModel.request "" (bo, None))
             with_ann in
  response w =
    fiber.mkResponse 200
      (fiber.JSONOf (fiber.AEmployees [mkEmployee hex0 "Ann" 1000%float 30%float]))
      "application/json" /\
  List.length (calls w) = 2%nat.
Proof.
  destruct (getEmployee_success_200 MongoModel.env employees
              (MongoModel.request "" (bo, None)) with_ann with_ann with_ann
              (mongo.mkCursor [ann_doc]) [mkEmployee hex0 "Ann" 1000%float 30%float]
              eq_refl eq_refl)
    as (Hresp & _ & Hcalls).
  split; [exact Hresp | rewrite Hcalls; reflexivity].
Defined.

Lemma malformed_id_writes_on_with_ann :
  writes (serve MongoModel.env (putEmployee employees)
            (MongoModel.request "ann" (bo, None)) with_ann) = [fiber.SendStatus 400] /\
  writes (serve MongoModel.env (deleteEmployee employees)
            (MongoModel.request "ann" (bo, None)) with_ann)
  = [fiber.Status 400;
     fiber.SendString "the provided hex string is not a valid ObjectID"].
Proof.
  apply (malformed_id_writes MongoModel.env employees
           (MongoModel.request "ann" (bo, None)) with_ann ErrInvalidHex eq_refl).
Defined.

(** Bo is posted next to Ann: the two documents are keyed apart. *)
Lemma ids_unique_after_post_on_with_ann :
  Keyed.unique_ids
    (MongoModel.docs (store (serve MongoModel.env (postEmployee employees)
                               (MongoModel.request "" (bo, None)) with_ann))).
Proof.
  destruct (handlers_keep_ids_unique employees (MongoModel.request "" (bo, None))
              with_ann with_ann_unique) as (_ & Hpost & _ & _).
  exact Hpost.
Defined.

(** Ann's identifier deleted where she is stored, and where she is not. *)
Lemma deleteEmployee_first_match_on_with_ann :
  (let w := serve MongoModel.env (deleteEmployee employees)
              (MongoModel.request hex0 (bo, None)) with_ann in
   fiber.StatusCode (response w) = 200 /\ MongoModel.docs (store w) = []) /\
  (let w := serve MongoModel.env (deleteEmployee employees)
              (MongoModel.request hex9 (bo, None)) with_ann in
   fiber.StatusCode (response w) = 404 /\ MongoModel.docs (store w) = [ann_doc]).
Proof.
  split.
  - destruct (deleteEmployee_removes_first_match employees
                (MongoModel.request hex0 (bo, None)) oid0 with_ann eq_refl eq_refl)
      as (Hstatus & _ & Hdocs).
    split; [exact Hstatus | exact Hdocs].
  - exact (deleteEmployee_removes_first_match employees
             (MongoModel.request hex9 (bo, None)) oid9 with_ann
             eq_refl eq_refl).
Defined.

Lemma deleteEmployee_twice_on_with_ann :
  let w1 := serve MongoModel.env (deleteEmployee employees)
              (MongoModel.request hex0 (bo, None)) with_ann in
  let w2 := serve MongoModel.env (deleteEmployee employees)
              (MongoModel.request hex0 (bo, None)) (store w1) in
  fiber.StatusCode (response w1) = 200 /\ fiber.StatusCode (response w2) = 404.
Proof.
  destruct (deleteEmployee_twice_404 employees (MongoModel.request hex0 (bo, None))
              oid0 with_ann [] [] ann_doc eq_refl eq_refl with_ann_unique eq_refl)
    as (H1 & _ & H2 & _).
  split; [exact H1 | exact H2].
Defined.

(** Bo is posted next to Ann and then listed, renamed, or deleted under the
    identifier the POST returned. *)
Lemma create_then_list_on_with_ann :
  let w1 := serve MongoModel.env (postEmployee employees)
              (MongoModel.request "" (bo, None)) with_ann in
  let w2 := serve MongoModel.env (getEmployee employees)
              (MongoModel.request "" (bo, None)) (store w1) in
  response w2 =
    fiber.mkResponse 200
      (fiber.JSONOf (fiber.AEmployees
         [mkEmployee hex0 "Ann" 1000%float 30%float;
          mkEmployee hex1 "Bo" 2000%float 41%float]))
      "application/json".
Proof.
  destruct (create_then_list_appends_record employees
              (MongoModel.request "" (bo, None)) (MongoModel.request "" (bo, None))
              bo with_ann [mkEmployee hex0 "Ann" 1000%float 30%float]
              eq_refl eq_refl eq_refl eq_refl eq_refl) as [_ Hlist].
  exact Hlist.
Defined.

Lemma create_then_update_on_with_ann :
  let w1 := serve MongoModel.env (postEmployee employees)
              (MongoModel.request "" (bo, None)) with_ann in
  let w2 := serve MongoModel.env (putEmployee employees)
              (MongoModel.request hex1 (ann, None)) (store w1) in
  response w2 =
    fiber.mkResponse 200
      (fiber.JSONOf (fiber.AEmployee
         (mkEmployee hex1 "Ann" 1000%float 30%float)))
      "application/json" /\
  MongoModel.docs (store w2) =
    [ann_doc;
     [("_id", bson.ObjectID oid1); ("name", bson.Str "Ann");
      ("salary", bson.Double 1000%float); ("age", bson.Double 30%float)]].
Proof.
  exact (create_then_update_by_returned_id employees
           (MongoModel.request "" (bo, None))
           (MongoModel.request hex1 (ann, None))
           bo ann with_ann eq_refl eq_refl eq_refl eq_refl eq_refl).
Defined.

Lemma create_then_delete_on_with_ann :
  let w1 := serve MongoModel.env (postEmployee employees)
              (MongoModel.request "" (bo, None)) with_ann in
  let w2 := serve MongoModel.env (deleteEmployee employees)
              (MongoModel.request hex1 (bo, None)) (store w1) in
  fiber.StatusCode (response w2) = 200 /\ MongoModel.docs (store w2) = [ann_doc].
Proof.
  exact (create_then_delete_by_returned_id employees
           (MongoModel.request "" (bo, None))
           (MongoModel.request hex1 (bo, None))
           bo with_ann eq_refl eq_refl eq_refl eq_refl).
Defined.

(** Startup with a connection that times out, and with one that is made. *)
Lemma Connect_reports_timeout :
  fst (exec (libs (Some timeout) Serves) Connect (Process0 tt)) = inl (Some timeout) /\
  fst (exec (libs None Serves) Connect (Process0 tt)) = inl None.
Proof.
  split.
  - rewrite (Connect_reports_client_Connect (libs (Some timeout) Serves) (Process0 tt)
               tt tt client None (Some timeout) eq_refl eq_refl).
    reflexivity.
  - rewrite (Connect_reports_client_Connect (libs None Serves) (Process0 tt)
               tt tt client None None eq_refl eq_refl).
    reflexivity.
Defined.

Lemma main_listens_until_shutdown :
  let r := exec (libs None (Returns None)) main (Process0 tt) in
  fst r = inr (Exit 1) /\ stderr (snd r) = ["<nil>"] /\ server_started (snd r) = true.
Proof.
  destruct (main_connected_registers_then_listens (libs None (Returns None)) tt tt tt tt
              client None None eq_refl eq_refl eq_refl)
    as (Hexit & Htrace & Herr & _).
  split; [exact Hexit|]. split; [exact Herr|].
  unfold server_started. rewrite Htrace. reflexivity.
Defined.

End MoreInstances.
